(** * OpenRouter for Homey: device and driver

    A shallow embedding of [drivers/openrouter/device.ts] (the class
    [OpenRouterDevice]) and of the driver module (the class
    [OpenRouterDriver] with its [FEATURED_MODELS] table), followed by the
    properties of the text-generation contract, the model cache, the
    autocomplete matcher, the balance probe and the pairing login.

    Conventions of the embedding.
    - A JavaScript string is a sequence of UTF-16 code units; every string
      constant of the program is ASCII.  Strings are Stdlib strings, read
      as sequences of code units below 256.
    - [async] methods run to completion one at a time: a method is a
      function from the object's fields and the clock to a result, the new
      fields, the new clock and the list of effects it performed (network
      requests, log lines, capability writes), in program order.
    - The remote API and the host runtime are oracles of the world: the
      methods are analysed for every possible answer.
    - [toLowerCase] and [localeCompare] depend on the Unicode tables and on
      the host locale; they are operations of a [Locale] interface. *)

From Stdlib Require Import List String Ascii ZArith Bool Lia Floats.
From Stdlib Require Import Sorting.Sorted Sorting.Permutation.
From Stdlib Require Import Numbers.DecimalString.
Import ListNotations.

Local Open Scope string_scope.
Local Open Scope Z_scope.

(* ================================================================== *)
(** ** JavaScript values and string primitives *)

Module JS.

(** Truthiness of a string: only the empty string is falsy. *)
Definition truthy (s : string) : bool := negb (s =? "")%string.

(** Truthiness of an optional string ([undefined] is falsy). *)
Definition truthy_opt (x : option string) : bool :=
  match x with
  | Some s => truthy s
  | None => false
  end.

(** [x || d] for an optional string [x] and a string [d]. *)
Definition or_else (x : option string) (d : string) : string :=
  match x with
  | Some s => if truthy s then s else d
  | None => d
  end.

(** White space and line terminators of ECMAScript among the code units
    below 256: TAB, LF, VT, FF, CR, SPACE and NO-BREAK SPACE. *)
Definition isWhiteSpace (c : ascii) : bool :=
  match nat_of_ascii c with
  | 9%nat | 10%nat | 11%nat | 12%nat | 13%nat | 32%nat | 160%nat => true
  | _ => false
  end.

Fixpoint trimStart (s : string) : string :=
  match s with
  | EmptyString => EmptyString
  | String c r => if isWhiteSpace c then trimStart r else s
  end.

Fixpoint trimEnd (s : string) : string :=
  match s with
  | EmptyString => EmptyString
  | String c r =>
      match trimEnd r with
      | EmptyString => if isWhiteSpace c then EmptyString else String c EmptyString
      | r' => String c r'
      end
  end.

(** [String.prototype.trim]. *)
Definition trim (s : string) : string := trimEnd (trimStart s).

(** [s.startsWith(p)]. *)
Definition startsWith (s p : string) : bool := String.prefix p s.

(** [s.includes(t)]: [t] occurs in [s] at some position. *)
Fixpoint includes (s t : string) : bool :=
  startsWith s t ||
  match s with
  | EmptyString => false
  | String _ r => includes r t
  end.

(** [s.split(sep)] for a one-character separator. *)
Fixpoint split (sep : ascii) (s : string) : list string :=
  match s with
  | EmptyString => [EmptyString]
  | String c r =>
      if Ascii.eqb c sep then EmptyString :: split sep r
      else match split sep r with
           | seg :: segs => String c seg :: segs
           | [] => [String c EmptyString]
           end
  end.

(** [Array.prototype.includes] and [indexOf] on an array of strings. *)
Definition array_includes (l : list string) (x : string) : bool :=
  existsb (String.eqb x) l.

Fixpoint indexOf (l : list string) (x : string) : Z :=
  match l with
  | [] => -1
  | y :: r =>
      if (y =? x)%string then 0
      else let i := indexOf r x in if i <? 0 then -1 else i + 1
  end.

(** Template-literal rendering of an integer. *)
Definition string_of_Z (z : Z) : string := NilZero.string_of_int (Z.to_int z).

(** Thrown values. [Error m] is [new Error(m)]; the other two are raised
    by the runtime ([fetch], [response.json()], property access on
    [undefined]). *)
Inductive Exn : Type :=
| Error (message : string)
| TypeError (message : string)
| SyntaxError (message : string).

(** [Array.prototype.sort(cmp)]: the sort is stable, and [a] is placed
    before [b] when [cmp a b < 0].  For a consistent comparator the
    result is determined by these two requirements; it is computed here
    by insertion, each element entering before the first element of the
    sorted rest that it does not follow. *)
Section Sort.
Context {A : Type} (cmp : A -> A -> Z).

Fixpoint insert (x : A) (l : list A) : list A :=
  match l with
  | [] => [x]
  | y :: r => if cmp x y <=? 0 then x :: y :: r else y :: insert x r
  end.

Definition sort (l : list A) : list A := fold_right insert [] l.
End Sort.

(** [String.prototype.toLowerCase] and [String.prototype.localeCompare]:
    their values depend on the Unicode case tables and on the collation
    of the host locale. *)
Class Locale : Type := mkLocale {
  toLowerCase : string -> string;
  localeCompare : string -> string -> Z
}.

(** What the program relies on: lower-casing the empty string gives
    the empty string, and [localeCompare] is a consistent comparator
    (its non-positive results form a total preorder). *)
Class LocaleLaws (L : Locale) : Prop := mkLocaleLaws {
  toLowerCase_empty : toLowerCase "" = "";
  localeCompare_total :
    forall a b, 0 < localeCompare a b -> localeCompare b a <= 0;
  localeCompare_trans :
    forall a b c,
      localeCompare a b <= 0 -> localeCompare b c <= 0 ->
      localeCompare a c <= 0
}.

(** [t] occurs in [s] as a substring. *)
Definition occurs_in (t s : string) : Prop :=
  exists a b, s = (a ++ t ++ b)%string.

(** Every character of [s] is white space. *)
Fixpoint blank (s : string) : bool :=
  match s with
  | EmptyString => true
  | String c r => isWhiteSpace c && blank r
  end.

(** First and last character of a string. *)
Definition first_char (s : string) : option ascii :=
  match s with
  | EmptyString => None
  | String c _ => Some c
  end.

Fixpoint last_char (s : string) : option ascii :=
  match s with
  | EmptyString => None
  | String c EmptyString => Some c
  | String _ r => last_char r
  end.

Definition is_space (x : option ascii) : bool :=
  match x with
  | Some c => isWhiteSpace c
  | None => false
  end.

(** The character [c] occurs in [s]. *)
Fixpoint has_char (c : ascii) (s : string) : bool :=
  match s with
  | EmptyString => false
  | String x r => Ascii.eqb x c || has_char c r
  end.

End JS.

(* ================================================================== *)
(** ** The world: remote API, host runtime, effects *)

Module Host.
Import JS.

Inductive Method : Type := GET | POST.

(** [ChatMessage] of device.ts. *)
Inductive Role : Type := system | user | assistant.

Record ChatMessage : Type := mkChatMessage {
  role : Role;
  content : string
}.

(** The object handed to [JSON.stringify] by [generateText]. *)
Record ChatBody : Type := mkChatBody {
  model : string;
  messages : list ChatMessage;
  max_tokens : Z
}.

Record Request : Type := mkRequest {
  url : string;
  method : Method;
  headers : list (string * string);
  body : option ChatBody
}.

(** A resolved [fetch]: status line, body as text, body as parsed JSON
    of shape [P] (or the error [response.json()] rejects with). *)
Record Response (P : Type) : Type := mkResponse {
  status : Z;
  text : string;
  json : Exn + P
}.
Arguments mkResponse {P}.
Arguments status {P}.
Arguments text {P}.
Arguments json {P}.

(** [response.ok]: the status is in the range 200-299. *)
Definition ok {P : Type} (r : Response P) : bool :=
  (200 <=? status r) && (status r <=? 299).

(** What the network answers to a request: after [latency] milliseconds
    the promise resolves with a response or rejects. *)
Record Reply (P : Type) : Type := mkReply {
  latency : Z;
  outcome : Exn + Response P
}.
Arguments mkReply {P}.
Arguments latency {P}.
Arguments outcome {P}.

(** Payload interfaces of device.ts and of the driver. *)
Record Message : Type := mkMessage { message_content : option string }.
Record Choice : Type := mkChoice { choice_message : option Message }.
Record ErrorInfo : Type := mkErrorInfo { error_message : option string }.

Record OpenRouterResponse : Type := mkOpenRouterResponse {
  choices : option (list Choice);
  error : option ErrorInfo
}.

Record CreditsData : Type := mkCreditsData {
  total_credits : float;
  total_usage : float
}.

Record CreditsResponse : Type := mkCreditsResponse {
  credits_data : option CreditsData;
  credits_error : option ErrorInfo
}.

Record OpenRouterModel : Type := mkModel {
  id : string;
  name : string
}.

(** The interface declares [data] as an array that is always present; at
    run time the field can be missing or hold something else, and
    [data.data.map] then raises a TypeError.  [None] is that case. *)
Record ModelsResponse : Type := mkModelsResponse {
  models_data : option (list OpenRouterModel)
}.

Inductive Capability : Type := openrouter_status | openrouter_credits.

Inductive CapValue : Type :=
| VBool (b : bool)
| VNum (x : float).

Inductive LogArg : Type :=
| AStr (s : string)
| ANum (z : Z)
| AExn (e : Exn).

(** Effects a method performs, in program order. *)
Inductive Event : Type :=
| EvFetch (req : Request)
| EvLog (args : list LogArg)
| EvError (args : list LogArg)
| EvSetCapability (c : Capability) (v : CapValue).

(** The oracles: the three endpoints, asked at a time with a request,
    and the host's capability store, which accepts a write or rejects
    it with an error. *)
Record World : Type := mkWorld {
  models_api : Z -> Request -> Reply ModelsResponse;
  credits_api : Z -> Request -> Reply CreditsResponse;
  chat_api : Z -> Request -> Reply OpenRouterResponse;
  capability_sink : Capability -> CapValue -> option Exn
}.

(** Result of running a method of an object with fields [S]. *)
Record Result (S A : Type) : Type := mkResult {
  value : Exn + A;
  self' : S;
  clock' : Z;
  events : list Event
}.
Arguments mkResult {S A}.
Arguments value {S A}.
Arguments self' {S A}.
Arguments clock' {S A}.
Arguments events {S A}.

Definition M (S A : Type) : Type := World -> S -> Z -> Result S A.

Definition ret {S A} (a : A) : M S A :=
  fun _ s t => mkResult (inr a) s t [].

Definition throw {S A} (e : Exn) : M S A :=
  fun _ s t => mkResult (inl e) s t [].

Definition bind {S A B} (m : M S A) (k : A -> M S B) : M S B :=
  fun w s t =>
    let r := m w s t in
    match value r with
    | inl e => mkResult (inl e) (self' r) (clock' r) (events r)
    | inr a =>
        let r' := k a w (self' r) (clock' r) in
        mkResult (value r') (self' r') (clock' r') (events r ++ events r')
    end.

(** [try { m } catch (e) { h e }]. *)
Definition try_catch {S A} (m : M S A) (h : Exn -> M S A) : M S A :=
  fun w s t =>
    let r := m w s t in
    match value r with
    | inl e =>
        let r' := h e w (self' r) (clock' r) in
        mkResult (value r') (self' r') (clock' r') (events r ++ events r')
    | inr a => r
    end.

Definition gets {S A} (f : S -> A) : M S A :=
  fun _ s t => mkResult (inr (f s)) s t [].

Definition modify {S} (f : S -> S) : M S unit :=
  fun _ s t => mkResult (inr tt) (f s) t [].

Definition emit {S} (e : Event) : M S unit :=
  fun _ s t => mkResult (inr tt) s t [e].

(** [Date.now()]. *)
Definition date_now {S} : M S Z :=
  fun _ s t => mkResult (inr t) s t [].

(** [await fetch(url, init)] against one of the endpoints. *)
Definition fetch {S P} (api : World -> Z -> Request -> Reply P)
    (req : Request) : M S (Response P) :=
  fun w s t =>
    let rep := api w t req in
    mkResult (outcome rep) s (t + latency rep) [EvFetch req].

(** [await response.json()]. *)
Definition json_of {S P} (r : Response P) : M S P :=
  match json r with
  | inl e => throw e
  | inr p => ret p
  end.

Definition log {S} (args : list LogArg) : M S unit := emit (EvLog args).
Definition log_error {S} (args : list LogArg) : M S unit := emit (EvError args).

Definition run {S A} (m : M S A) (w : World) (s : S) (t : Z) : Result S A :=
  m w s t.

(** The network requests among a list of effects. *)
Definition requests (evs : list Event) : list Request :=
  flat_map (fun e => match e with EvFetch r => [r] | _ => [] end) evs.

(** The capability writes among a list of effects. *)
Definition published (evs : list Event) : list (Capability * CapValue) :=
  flat_map (fun e => match e with EvSetCapability c v => [(c, v)] | _ => [] end) evs.

End Host.

Declare Scope js_scope.
Delimit Scope js_scope with js.
Notation "x <- m ;; k" := (Host.bind m (fun x => k))
  (at level 61, m at next level, right associativity) : js_scope.
Notation "m ;;; k" := (Host.bind m (fun _ => k))
  (at level 61, right associativity) : js_scope.

(* ================================================================== *)
(** ** The device: [OpenRouterDevice] *)

Module Device.
Import JS Host.
Local Open Scope js_scope.

(** The two private fields, and the values last accepted by the host
    for the two capabilities of the device. *)
Record OpenRouterDevice : Type := mkDevice {
  apiKey : string;
  defaultModel : string;
  status_value : option CapValue;
  credits_value : option CapValue
}.

Definition store (c : Capability) (v : CapValue) (d : OpenRouterDevice)
  : OpenRouterDevice :=
  match c with
  | openrouter_status =>
      mkDevice (apiKey d) (defaultModel d) (Some v) (credits_value d)
  | openrouter_credits =>
      mkDevice (apiKey d) (defaultModel d) (status_value d) (Some v)
  end.

(** [this.setCapabilityValue(c, v)]: the host stores the value, or the
    promise rejects and nothing is stored. *)
Definition setCapabilityValue (c : Capability) (v : CapValue)
  : M OpenRouterDevice unit :=
  fun w d t =>
    match capability_sink w c v with
    | None => mkResult (inr tt) (store c v d) t [EvSetCapability c v]
    | Some e => mkResult (inl e) d t [EvSetCapability c v]
    end.

(** [promise.catch(this.error)]. *)
Definition catch_error {S} (m : M S unit) : M S unit :=
  try_catch m (fun e => log_error [AExn e]).

Definition bearer (key : string) : list (string * string) :=
  [("Authorization", "Bearer " ++ key)].

Definition credits_request (key : string) : Request :=
  mkRequest "https://openrouter.ai/api/v1/credits" GET (bearer key) None.

Definition models_request (key : string) : Request :=
  mkRequest "https://openrouter.ai/api/v1/models" GET (bearer key) None.

Definition chat_request (key selectedModel : string)
    (msgs : list ChatMessage) : Request :=
  mkRequest "https://openrouter.ai/api/v1/chat/completions" POST
    [("Authorization", "Bearer " ++ key);
     ("Content-Type", "application/json");
     ("HTTP-Referer", "https://homey.app");
     ("X-Title", "Homey OpenRouter")]
    (Some (mkChatBody selectedModel msgs 500)).

Definition checkCredits : M OpenRouterDevice unit :=
  key <- gets apiKey ;;
  if negb (truthy key) then ret tt
  else
    try_catch
      (response <- fetch credits_api (credits_request key) ;;
       if negb (ok response) then
         log [AStr "Credits endpoint not available"]
       else
         data <- json_of response ;;
         match credits_data data with
         | Some d =>
             let remaining := (total_credits d - total_usage d)%float in
             catch_error (setCapabilityValue openrouter_credits (VNum remaining))
         | None => ret tt
         end)
      (fun e => log_error [AStr "Credits check failed:"; AExn e]).

Definition checkApiStatus : M OpenRouterDevice bool :=
  try_catch
    (key <- gets apiKey ;;
     response <- fetch models_api (models_request key) ;;
     let isOnline := ok response in
     catch_error (setCapabilityValue openrouter_status (VBool isOnline)) ;;;
     ret isOnline)
    (fun e =>
       log_error [AStr "API status check failed:"; AExn e] ;;;
       catch_error (setCapabilityValue openrouter_status (VBool false)) ;;;
       ret false).

(** The message sequence built by [generateText]. *)
Definition build_messages (prompt : string) (systemPrompt : option string)
  : list ChatMessage :=
  (match systemPrompt with
   | Some sp => if truthy sp then [mkChatMessage system sp] else []
   | None => []
   end) ++ [mkChatMessage user prompt].

(** [data.choices?.[0]?.message?.content]. *)
Definition first_content (data : OpenRouterResponse) : option string :=
  match choices data with
  | Some (c :: _) =>
      match choice_message c with
      | Some m => message_content m
      | None => None
      end
  | _ => None
  end.

Definition generateText (prompt : string) (model systemPrompt : option string)
  : M OpenRouterDevice string :=
  key <- gets apiKey ;;
  if negb (truthy key) then throw (Error "API key not configured")
  else
    dflt <- gets defaultModel ;;
    let selectedModel := or_else model dflt in
    let messages := build_messages prompt systemPrompt in
    log [AStr ("Generating text with model: " ++ selectedModel)] ;;;
    try_catch
      (response <- fetch chat_api (chat_request key selectedModel messages) ;;
       if negb (ok response) then
         log_error [AStr "OpenRouter API error:"; AStr (text response)] ;;;
         throw (Error ("API request failed: " ++ string_of_Z (status response)))
       else
         data <- json_of response ;;
         match error data with
         | Some err => throw (Error (or_else (error_message err) "Unknown API error"))
         | None =>
             match first_content data with
             | Some content =>
                 if truthy content then ret (trim content)
                 else throw (Error "No response content received")
             | None => throw (Error "No response content received")
             end
         end)
      (fun e => log_error [AStr "Text generation failed:"; AExn e] ;;; throw e).

(** [onSettings]: a truthy new value replaces the field; both probes
    then run. *)
Definition onSettings (newApiKey newDefaultModel : option string)
  : M OpenRouterDevice unit :=
  (if truthy_opt newApiKey then
     modify (fun d => mkDevice (or_else newApiKey "") (defaultModel d)
                        (status_value d) (credits_value d))
   else ret tt) ;;;
  (if truthy_opt newDefaultModel then
     modify (fun d => mkDevice (apiKey d) (or_else newDefaultModel "")
                        (status_value d) (credits_value d))
   else ret tt) ;;;
  checkApiStatus ;;;
  checkCredits.

End Device.

(* ================================================================== *)
(** ** The driver: [OpenRouterDriver] *)

Module Driver.
Import JS Host.
Local Open Scope js_scope.

(** Popular models shown at the top of the autocomplete results. *)
Definition FEATURED_MODELS : list string :=
  ["google/gemini-3-flash-preview";
   "google/gemini-2.0-flash-exp:free";
   "openai/gpt-4.1-mini";
   "openai/gpt-4.1";
   "anthropic/claude-opus-4.5";
   "deepseek/deepseek-v3.2";
   "meta-llama/llama-4-maverick";
   "mistralai/mistral-large-2512"].

Record OpenRouterDriver : Type := mkDriver {
  modelsCache : list OpenRouterModel;
  modelsCacheTime : Z
}.

(** Field initialisers of the class. *)
Definition init : OpenRouterDriver := mkDriver [] 0.

Definition CACHE_TTL : Z := 5 * 60 * 1000.

(** The [Homey.Device] handed to the driver: its stored [apiKey]
    setting, [None] when unset. *)
Record HomeyDevice : Type := mkHomeyDevice {
  getSetting_apiKey : option string
}.

(** [id.split('/')[1] || id]. *)
Definition default_name (id : string) : string :=
  or_else (nth_error (split "/" id) 1) id.

Definition getDefaultModels : list OpenRouterModel :=
  map (fun id => mkModel id (default_name id)) FEATURED_MODELS.

(** The guard of [fetchModels]: cache non-empty and younger than the
    TTL.  The clock is read only when the cache is non-empty. *)
Definition cache_valid (d : OpenRouterDriver) (now : Z) : bool :=
  (0 <? Z.of_nat (List.length (modelsCache d))) &&
  (now - modelsCacheTime d <? CACHE_TTL).

Definition fetchModels (device : HomeyDevice)
  : M OpenRouterDriver (list OpenRouterModel) :=
  d <- gets (fun d => d) ;;
  now <- date_now ;;
  if cache_valid d now then ret (modelsCache d)
  else
    try_catch
      (match getSetting_apiKey device with
       | Some key =>
           if negb (truthy key) then ret getDefaultModels
           else
             response <- fetch models_api (Device.models_request key) ;;
             if negb (ok response) then
               log_error [AStr "Failed to fetch models:"; ANum (status response)] ;;;
               ret getDefaultModels
             else
               data <- json_of response ;;
               match models_data data with
               | Some l =>
                   modify (fun d => mkDriver
                             (map (fun m => mkModel (id m) (name m)) l)
                             (modelsCacheTime d)) ;;;
                   now' <- date_now ;;
                   modify (fun d => mkDriver (modelsCache d) now') ;;;
                   gets modelsCache
               | None =>
                   throw (TypeError "Cannot read properties of undefined (reading 'map')")
               end
       | None => ret getDefaultModels
       end)
      (fun e =>
         log_error [AStr "Error fetching models:"; AExn e] ;;;
         ret getDefaultModels).

(** The element returned to the flow editor for one model. *)
Record AutocompleteItem : Type := mkItem {
  item_id : string;
  item_name : string;
  description : string
}.

Definition to_item (m : OpenRouterModel) : AutocompleteItem :=
  mkItem (id m) (name m) (id m).

Section WithLocale.
Context {L : Locale}.

(** The predicate passed to [models.filter]. *)
Definition matches (lowerQuery : string) (m : OpenRouterModel) : bool :=
  includes (toLowerCase (id m)) lowerQuery ||
  includes (toLowerCase (name m)) lowerQuery.

(** The array [filtered] before it is sorted. *)
Definition matching (query : string) (models : list OpenRouterModel)
  : list OpenRouterModel :=
  filter (matches (toLowerCase query)) models.

(** The comparator passed to [filtered.sort]. *)
Definition compareModels (a b : OpenRouterModel) : Z :=
  let aFeatured := array_includes FEATURED_MODELS (id a) in
  let bFeatured := array_includes FEATURED_MODELS (id b) in
  if aFeatured && negb bFeatured then -1
  else if negb aFeatured && bFeatured then 1
  else if aFeatured && bFeatured then
    indexOf FEATURED_MODELS (id a) - indexOf FEATURED_MODELS (id b)
  else localeCompare (name a) (name b).

(** The sorted array, before [slice] and [map]. *)
Definition ranked (query : string) (models : list OpenRouterModel)
  : list OpenRouterModel :=
  sort compareModels (matching query models).

Definition getModelAutocomplete (query : string) (device : HomeyDevice)
  : M OpenRouterDriver (list AutocompleteItem) :=
  models <- fetchModels device ;;
  ret (map to_item (firstn 50 (ranked query models))).
End WithLocale.

(** [validateApiKey]: it reads and writes no field of the driver. *)
Definition validateApiKey {S} (apiKey : string) : M S bool :=
  try_catch
    (response <- fetch models_api (Device.models_request apiKey) ;;
     ret (ok response))
    (fun e =>
       log_error [AStr "API key validation error:"; AExn e] ;;;
       ret false).

(** [pairData], the variable shared by the two handlers of [onPair]. *)
Record PairSession : Type := mkPairSession {
  apiKey : string;
  defaultModel : string
}.

Definition pairData_init : PairSession :=
  mkPairSession "" "google/gemini-3-flash-preview".

(** The argument of the [login] handler; a field may be [undefined]. *)
Record LoginData : Type := mkLoginData {
  username : option string;
  password : option string
}.

Definition invalid_key : Exn :=
  Error "Invalid API key. It should start with sk-or-".

Definition login (data : LoginData) : M PairSession bool :=
  let apiKey := option_map trim (username data) in
  let defaultModel :=
    or_else (option_map trim (password data)) "google/gemini-3-flash-preview" in
  match apiKey with
  | None => throw invalid_key
  | Some key =>
      if negb (truthy key) || negb (startsWith key "sk-or-") then
        throw invalid_key
      else
        isValid <- validateApiKey key ;;
        if negb isValid then
          throw (Error "API key validation failed. Please check your key.")
        else
          modify (fun p => mkPairSession key (Driver.defaultModel p)) ;;;
          modify (fun p => mkPairSession (Driver.apiKey p) defaultModel) ;;;
          ret true
  end.

Record DeviceEntry : Type := mkDeviceEntry {
  entry_name : string;
  entry_id : string;
  entry_apiKey : string;
  entry_defaultModel : string
}.

Definition list_devices : M PairSession (list DeviceEntry) :=
  now <- date_now ;;
  p <- gets (fun p => p) ;;
  ret [mkDeviceEntry "OpenRouter" ("openrouter-" ++ string_of_Z now)
         (apiKey p) (defaultModel p)].

End Driver.

(* ================================================================== *)
(** ** Device start-up *)

Module DeviceLifecycle.
Import JS Host Device.
Local Open Scope js_scope.

(** The stored settings read by [this.getSetting]; [None] when unset. *)
Record Settings : Type := mkSettings {
  setting_apiKey : option string;
  setting_defaultModel : option string
}.

(** A timer registered with [this.homey.setInterval]: its period in
    milliseconds.  Its callback starts [checkApiStatus] and
    [checkCredits] without awaiting either. *)
Record Interval : Type := mkInterval {
  period : Z
}.

(** [onInit]: the answer lists the timers the method registered. *)
Definition onInit (settings : Settings) : M OpenRouterDevice (list Interval) :=
  log [AStr "OpenRouter device initialized"] ;;;
  modify (fun d => mkDevice (or_else (setting_apiKey settings) "")
                     (defaultModel d) (status_value d) (credits_value d)) ;;;
  modify (fun d => mkDevice (apiKey d)
                     (or_else (setting_defaultModel settings)
                        "google/gemini-3-flash-preview")
                     (status_value d) (credits_value d)) ;;;
  checkApiStatus ;;;
  checkCredits ;;;
  ret [mkInterval (5 * 60 * 1000)].

(** The settings a paired device starts with: those of the entry chosen
    in the pairing view. *)
Definition settings_of_entry (e : Driver.DeviceEntry) : Settings :=
  mkSettings (Some (Driver.entry_apiKey e)) (Some (Driver.entry_defaultModel e)).

End DeviceLifecycle.

(* ================================================================== *)
(** ** The flow cards registered by the driver *)

Module FlowCards.
Import JS Host.
Local Open Scope js_scope.

(** The object a run listener returns. *)
Record FlowResult : Type := mkFlowResult {
  response : string
}.

(** Run listener of the card [generate_text]; [model] is the entry
    chosen in the autocomplete. *)
Definition generate_text (model : Driver.AutocompleteItem) (prompt : string)
  : M Device.OpenRouterDevice FlowResult :=
  response <- Device.generateText prompt (Some (Driver.item_id model)) None ;;
  ret (mkFlowResult response).

(** Run listener of the card [generate_with_context]. *)
Definition generate_with_context (model : Driver.AutocompleteItem)
    (system_prompt : option string) (prompt : string)
  : M Device.OpenRouterDevice FlowResult :=
  response <- Device.generateText prompt (Some (Driver.item_id model)) system_prompt ;;
  ret (mkFlowResult response).

(** Autocomplete listener of the argument [model] of both cards. *)
Definition model_autocomplete {L : Locale} (query : string)
    (device : Driver.HomeyDevice)
  : M Driver.OpenRouterDriver (list Driver.AutocompleteItem) :=
  Driver.getModelAutocomplete query device.

End FlowCards.

(* ================================================================== *)
(** ** A concrete locale: ASCII case folding, code-unit order *)

Module PlainLocale.
Import JS.

Definition lower_char (c : ascii) : ascii :=
  let n := nat_of_ascii c in
  if (65 <=? n)%nat && (n <=? 90)%nat then ascii_of_nat (n + 32) else c.

Fixpoint lower (s : string) : string :=
  match s with
  | EmptyString => EmptyString
  | String c r => String (lower_char c) (lower r)
  end.

Fixpoint code_compare (a b : string) : Z :=
  match a, b with
  | EmptyString, EmptyString => 0
  | EmptyString, String _ _ => -1
  | String _ _, EmptyString => 1
  | String x a', String y b' =>
      match (N_of_ascii x ?= N_of_ascii y)%N with
      | Lt => -1
      | Gt => 1
      | Eq => code_compare a' b'
      end
  end.

#[export] Instance plain : Locale := mkLocale lower code_compare.

End PlainLocale.

(* ================================================================== *)
(** ** Vocabulary of the properties *)

Module Spec.
Import JS Host.

(** The error taxonomy, as the thrown values that carry it. *)
Definition NoKeyConfigured : Exn := Error "API key not configured".
Definition EmptyResponse : Exn := Error "No response content received".
Definition ApiError (m : string) : Exn := Error m.
Definition InvalidKey : Exn := Driver.invalid_key.

(** The message sequences carried by the requests among some effects. *)
Definition outgoing_messages (evs : list Event) : list (list ChatMessage) :=
  flat_map (fun req => match body req with
                       | Some b => [messages b]
                       | None => []
                       end) (requests evs).

(** The request bounds the output to 500 tokens. *)
Definition attaches_max_tokens (req : Request) : bool :=
  match body req with
  | Some b => max_tokens b =? 500
  | None => false
  end.

Definition has_header (h : string) (req : Request) : bool :=
  existsb (fun kv => (fst kv =? h)%string) (headers req).

(** The request names the calling application. *)
Definition sends_identification (req : Request) : bool :=
  has_header "HTTP-Referer" req && has_header "X-Title" req.

(** The ranking of the autocomplete results, in the words of the
    specification: featured before non-featured; featured by position in
    the featured list; non-featured by [localeCompare] of the names. *)
Definition featured (m : OpenRouterModel) : bool :=
  array_includes Driver.FEATURED_MODELS (id m).

Definition position (m : OpenRouterModel) : Z :=
  indexOf Driver.FEATURED_MODELS (id m).

Definition ranks_before {L : Locale} (a b : OpenRouterModel) : Prop :=
  (featured a = true /\ featured b = false) \/
  (featured a = true /\ featured b = true /\ position a <= position b) \/
  (featured a = false /\ featured b = false /\
   localeCompare (name a) (name b) <= 0).

(** The catalog carried by a response of the models endpoint, when its
    body parses and has the [data] field. *)
Definition models_of (r : Response ModelsResponse) : option (list OpenRouterModel) :=
  match json r with
  | inr p => models_data p
  | inl _ => None
  end.

(** The ways a refresh of the catalog fails, for a device handle, a
    world and the time of the call. *)
Inductive RefreshFailure (dev : Driver.HomeyDevice) (w : World) (t : Z) : Prop :=
| refresh_no_key :
    truthy_opt (Driver.getSetting_apiKey dev) = false ->
    RefreshFailure dev w t
| refresh_transport (key : string) (e : Exn) :
    Driver.getSetting_apiKey dev = Some key -> truthy key = true ->
    outcome (models_api w t (Device.models_request key)) = inl e ->
    RefreshFailure dev w t
| refresh_status (key : string) (r : Response ModelsResponse) :
    Driver.getSetting_apiKey dev = Some key -> truthy key = true ->
    outcome (models_api w t (Device.models_request key)) = inr r ->
    ok r = false ->
    RefreshFailure dev w t
| refresh_malformed (key : string) (r : Response ModelsResponse) :
    Driver.getSetting_apiKey dev = Some key -> truthy key = true ->
    outcome (models_api w t (Device.models_request key)) = inr r ->
    ok r = true -> models_of r = None ->
    RefreshFailure dev w t.

(** The credits carried by a response of the credits endpoint. *)
Definition credits_of (r : Response CreditsResponse) : option CreditsData :=
  match json r with
  | inr p => credits_data p
  | inl _ => None
  end.

(** The ways the balance probe fails. *)
Inductive ProbeFailure (d : Device.OpenRouterDevice) (w : World) (t : Z) : Prop :=
| probe_no_key :
    Device.apiKey d = "" -> ProbeFailure d w t
| probe_transport (e : Exn) :
    Device.apiKey d <> "" ->
    outcome (credits_api w t (Device.credits_request (Device.apiKey d))) = inl e ->
    ProbeFailure d w t
| probe_status (r : Response CreditsResponse) :
    Device.apiKey d <> "" ->
    outcome (credits_api w t (Device.credits_request (Device.apiKey d))) = inr r ->
    ok r = false ->
    ProbeFailure d w t
| probe_no_data (r : Response CreditsResponse) :
    Device.apiKey d <> "" ->
    outcome (credits_api w t (Device.credits_request (Device.apiKey d))) = inr r ->
    ok r = true -> credits_of r = None ->
    ProbeFailure d w t.

(** The probe reads the credits [c]. *)
Definition ProbeReads (d : Device.OpenRouterDevice) (w : World) (t : Z)
    (c : CreditsData) : Prop :=
  Device.apiKey d <> "" /\
  exists r,
    outcome (credits_api w t (Device.credits_request (Device.apiKey d))) = inr r /\
    ok r = true /\ credits_of r = Some c.

End Spec.

(* ================================================================== *)
(** ** Sample worlds *)

Module Sample.
Import JS Host.

Definition unreachable {P : Type} : Z -> Request -> Reply P :=
  fun _ _ => mkReply 30 (inl (TypeError "fetch failed")).

Definition answers {P : Type} (st : Z) (p : P) : Z -> Request -> Reply P :=
  fun _ _ => mkReply 120 (inr (mkResponse st "" (inr p))).

(** A world where every endpoint is unreachable. *)
Definition offline : World :=
  mkWorld unreachable unreachable unreachable (fun _ _ => None).

Definition chat_world (st : Z) (p : OpenRouterResponse) : World :=
  mkWorld unreachable unreachable (answers st p) (fun _ _ => None).

Definition credits_world (st : Z) (p : CreditsResponse) : World :=
  mkWorld unreachable (answers st p) unreachable (fun _ _ => None).

Definition models_world (st : Z) (p : ModelsResponse) : World :=
  mkWorld (answers st p) unreachable unreachable (fun _ _ => None).

Definition device (key : string) : Device.OpenRouterDevice :=
  Device.mkDevice key "google/gemini-3-flash-preview" None None.

(** [{choices:[{message:{content:c}}]}]. *)
Definition completion (c : string) : OpenRouterResponse :=
  mkOpenRouterResponse (Some [mkChoice (Some (mkMessage (Some c)))]) None.

(** [{error:{}, choices:[{message:{content:"hi"}}]}]. *)
Definition unexplained_error : OpenRouterResponse :=
  mkOpenRouterResponse (Some [mkChoice (Some (mkMessage (Some "hi")))])
    (Some (mkErrorInfo None)).

End Sample.

(* ================================================================== *)
(** ** The courses a call can take *)

Module Outcomes.
Import JS Host.

(** The line [generateText] logs before it rethrows. *)
Definition failed (e : Exn) : Event :=
  EvError [AStr "Text generation failed:"; AExn e].

(** What [generateText] answers and logs after its request, by the
    reply of the chat endpoint. *)
Inductive Generation (rep : Reply OpenRouterResponse)
  : Exn + string -> list Event -> Prop :=
| gen_rejected (e : Exn) :
    outcome rep = inl e ->
    Generation rep (inl e) [failed e]
| gen_status (r : Response OpenRouterResponse) :
    outcome rep = inr r -> ok r = false ->
    Generation rep
      (inl (Error ("API request failed: " ++ string_of_Z (status r))))
      [EvError [AStr "OpenRouter API error:"; AStr (text r)];
       failed (Error ("API request failed: " ++ string_of_Z (status r)))]
| gen_unparsed (r : Response OpenRouterResponse) (e : Exn) :
    outcome rep = inr r -> ok r = true -> json r = inl e ->
    Generation rep (inl e) [failed e]
| gen_error (r : Response OpenRouterResponse) (data : OpenRouterResponse)
    (err : ErrorInfo) :
    outcome rep = inr r -> ok r = true -> json r = inr data ->
    error data = Some err ->
    Generation rep
      (inl (Error (or_else (error_message err) "Unknown API error")))
      [failed (Error (or_else (error_message err) "Unknown API error"))]
| gen_empty (r : Response OpenRouterResponse) (data : OpenRouterResponse) :
    outcome rep = inr r -> ok r = true -> json r = inr data ->
    error data = None ->
    truthy_opt (Device.first_content data) = false ->
    Generation rep (inl (Error "No response content received"))
      [failed (Error "No response content received")]
| gen_text (r : Response OpenRouterResponse) (data : OpenRouterResponse)
    (c : string) :
    outcome rep = inr r -> ok r = true -> json r = inr data ->
    error data = None ->
    Device.first_content data = Some c -> truthy c = true ->
    Generation rep (inr (trim c)) [].

(** Whether the models endpoint answers a request with a success
    status. *)
Definition reachable (w : World) (t : Z) (req : Request) : bool :=
  match outcome (models_api w t req) with
  | inr r => ok r
  | inl _ => false
  end.

(** The requests of the two probes run in a row with the key [key]. *)
Definition probe_requests (key : string) : list Request :=
  Device.models_request key ::
  (if truthy key then [Device.credits_request key] else []).

(** The pending pairing credentials hold nothing or a well-formed key. *)
Definition well_formed (p : Driver.PairSession) : Prop :=
  (Driver.apiKey p = "" \/ startsWith (Driver.apiKey p) "sk-or-" = true) /\
  Driver.defaultModel p <> "".

(** Two models the comparator does not separate. *)
Definition tied {L : Locale} (z y : OpenRouterModel) : bool :=
  (Driver.compareModels z y <=? 0) && (Driver.compareModels y z <=? 0).

End Outcomes.

Module Sample2.
Import JS Host.

(** A world whose models endpoint always answers [st] with an empty
    catalog, and whose other endpoints are unreachable. *)
Definition key_check (st : Z) : World :=
  Sample.models_world st (mkModelsResponse (Some [])).

(** A world where the models and the credits endpoints both answer. *)
Definition online (c : CreditsData) : World :=
  mkWorld (Sample.answers 200 (mkModelsResponse (Some [])))
          (Sample.answers 200 (mkCreditsResponse (Some c) None))
          Sample.unreachable
          (fun _ _ => None).

(** A world whose host rejects every capability write. *)
Definition read_only (c : CreditsData) : World :=
  mkWorld (Sample.answers 200 (mkModelsResponse (Some [])))
          (Sample.answers 200 (mkCreditsResponse (Some c) None))
          Sample.unreachable
          (fun _ _ => Some (Error "Invalid capability")).

Definition catalog : list OpenRouterModel :=
  [mkModel "z/z-gpt" "Zed"; mkModel "openai/gpt-4.1" "GPT-4.1";
   mkModel "a/gpt" "Zed"; mkModel "acme/foo" "foo"].

End Sample2.

(* ================================================================== *)
(** ** Facts about the string primitives *)

Module JSFacts.
Import JS.

Lemma truthy_false (s : string) : truthy s = false <-> s = "".
Proof.
  unfold truthy. rewrite negb_false_iff. apply String.eqb_eq.
Qed.

Lemma truthy_true (s : string) : truthy s = true <-> s <> "".
Proof.
  unfold truthy. rewrite negb_true_iff. apply String.eqb_neq.
Qed.

Lemma startsWith_spec (s p : string) :
  startsWith s p = true <-> exists b, s = (p ++ b)%string.
Proof.
  unfold startsWith. revert s.
  induction p as [|c p IH]; intros s.
  - destruct s; simpl; split; eauto.
  - destruct s as [|x s]; simpl.
    + split; [discriminate | intros [b Hb]; discriminate].
    + destruct (Ascii.ascii_dec c x) as [->|Hne].
      * rewrite IH. split; intros [b Hb]; exists b; congruence.
      * split; [discriminate | intros [b Hb]; congruence].
Qed.

Lemma startsWith_empty (p : string) : startsWith "" p = true -> p = "".
Proof.
  destruct p; [reflexivity | discriminate].
Qed.

(** [includes] decides occurrence as a substring. *)
Lemma includes_spec (s t : string) :
  includes s t = true <-> occurs_in t s.
Proof.
  unfold occurs_in.
  induction s as [|c s IH].
  - simpl. rewrite orb_false_r. split.
    + intros H. apply startsWith_empty in H. subst t.
      exists "", "". reflexivity.
    + intros (a & b & Hab).
      destruct a; [|discriminate]. destruct t; [reflexivity | discriminate].
  - change (includes (String c s) t)
      with (startsWith (String c s) t || includes s t).
    rewrite orb_true_iff, startsWith_spec, IH. split.
    + intros [[b Hb] | (a & b & Hab)].
      * exists "", b. exact Hb.
      * exists (String c a), b. simpl. now rewrite Hab.
    + intros (a & b & Hab). destruct a as [|x a].
      * left. exists b. exact Hab.
      * right. exists a, b. simpl in Hab. congruence.
Qed.

Lemma includes_empty (s : string) : includes s "" = true.
Proof.
  apply includes_spec. exists "", s. reflexivity.
Qed.

(** *** [trim] *)

Lemma trimStart_spec (s : string) :
  exists a, s = (a ++ trimStart s)%string /\ blank a = true /\
            is_space (first_char (trimStart s)) = false.
Proof.
  induction s as [|c s (a & Ha & Hb & Hf)].
  - exists "". auto.
  - simpl. destruct (isWhiteSpace c) eqn:Hc.
    + exists (String c a). simpl. rewrite Hc, Hb. repeat split; congruence.
    + exists "". simpl. auto.
Qed.

Lemma trimEnd_spec (s : string) :
  exists b, s = (trimEnd s ++ b)%string /\ blank b = true /\
            is_space (last_char (trimEnd s)) = false.
Proof.
  induction s as [|c s (b & Hb & Hw & Hl)].
  - exists "". auto.
  - simpl. destruct (trimEnd s) as [|x r] eqn:Ht.
    + destruct (isWhiteSpace c) eqn:Hc.
      * exists (String c b). simpl in *. rewrite Hc, Hw.
        repeat split; congruence.
      * exists b. simpl in *. repeat split; congruence.
    + exists b. simpl in *. repeat split; try assumption; congruence.
Qed.

Lemma trimEnd_first (s : string) :
  is_space (first_char s) = false ->
  is_space (first_char (trimEnd s)) = false.
Proof.
  destruct s as [|c s]; [auto|]. simpl. intros Hc.
  destruct (trimEnd s); [rewrite Hc|]; simpl; auto.
Qed.

(** [trim s] is [s] without its leading and trailing white space. *)
Lemma trim_spec (s : string) :
  exists a b,
    s = (a ++ trim s ++ b)%string /\ blank a = true /\ blank b = true /\
    is_space (first_char (trim s)) = false /\
    is_space (last_char (trim s)) = false.
Proof.
  unfold trim.
  destruct (trimStart_spec s) as (a & Ha & Hba & Hf).
  destruct (trimEnd_spec (trimStart s)) as (b & Hb & Hbb & Hl).
  exists a, b. repeat split; auto using trimEnd_first; congruence.
Qed.

(** *** [split] and [indexOf] *)

Lemma split_no_sep (c : ascii) (s : string) :
  has_char c s = false -> split c s = [s].
Proof.
  induction s as [|x s IH]; simpl; [reflexivity|].
  intros H. apply orb_false_iff in H as [Hx Hs].
  rewrite Hx, (IH Hs). reflexivity.
Qed.

Lemma split_app (c : ascii) (a b : string) :
  has_char c a = false ->
  split c (a ++ String c b) = a :: split c b.
Proof.
  induction a as [|x a IH]; simpl.
  - now rewrite Ascii.eqb_refl.
  - intros H. apply orb_false_iff in H as [Hx Ha].
    rewrite Hx, (IH Ha). reflexivity.
Qed.

Lemma indexOf_bounds (l : list string) (x : string) :
  -1 <= indexOf l x < Z.of_nat (List.length l).
Proof.
  induction l as [|y l IH]; simpl List.length; simpl indexOf; [lia|].
  destruct (y =? x)%string; [lia|].
  destruct (indexOf l x <? 0) eqn:E; [lia|].
  apply Z.ltb_ge in E. lia.
Qed.

Lemma indexOf_includes (l : list string) (x : string) :
  array_includes l x = true <-> 0 <= indexOf l x.
Proof.
  unfold array_includes.
  induction l as [|y l IH]; simpl; [split; [discriminate | lia]|].
  rewrite (String.eqb_sym x y).
  destruct (y =? x)%string; simpl; [split; [lia | reflexivity]|].
  rewrite IH. destruct (indexOf l x <? 0) eqn:E.
  - apply Z.ltb_lt in E. lia.
  - apply Z.ltb_ge in E. lia.
Qed.

(** *** [sort] *)

Section Sort.
Context {A : Type} (cmp : A -> A -> Z).

Lemma insert_perm (x : A) (l : list A) :
  Permutation (insert cmp x l) (x :: l).
Proof.
  induction l as [|y l IH]; simpl; [reflexivity|].
  destruct (cmp x y <=? 0); [reflexivity|].
  rewrite IH. apply perm_swap.
Qed.

Lemma sort_perm (l : list A) : Permutation (sort cmp l) l.
Proof.
  induction l as [|x l IH]; simpl; [reflexivity|].
  rewrite insert_perm. now constructor.
Qed.

Hypothesis cmp_total : forall a b, 0 < cmp a b -> cmp b a <= 0.
Hypothesis cmp_trans :
  forall a b c, cmp a b <= 0 -> cmp b c <= 0 -> cmp a c <= 0.

Let le (a b : A) : Prop := cmp a b <= 0.

Lemma insert_sorted (x : A) (l : list A) :
  StronglySorted le l -> StronglySorted le (insert cmp x l).
Proof.
  induction 1 as [|y l Hs IH Hy]; simpl.
  - repeat constructor.
  - destruct (cmp x y <=? 0) eqn:E.
    + apply Z.leb_le in E. constructor; [now constructor|].
      constructor; [exact E|].
      eapply Forall_impl; [|exact Hy]. intros z Hz. eapply cmp_trans; eauto.
    + apply Z.leb_gt in E. constructor; [exact IH|].
      apply (Permutation_Forall (Permutation_sym (insert_perm x l))).
      constructor; [apply cmp_total; lia | exact Hy].
Qed.

Lemma sort_sorted (l : list A) : StronglySorted le (sort cmp l).
Proof.
  induction l as [|x l IH]; simpl; [constructor|].
  now apply insert_sorted.
Qed.

(** Elements that the comparator does not separate keep their order. *)
Let tied (z y : A) : bool := (cmp z y <=? 0) && (cmp y z <=? 0).

Lemma insert_stable (z x : A) (l : list A) :
  filter (tied z) (insert cmp x l) = filter (tied z) (x :: l).
Proof.
  induction l as [|y l IH]; [reflexivity|].
  cbn [insert]. destruct (cmp x y <=? 0) eqn:E; [reflexivity|].
  apply Z.leb_gt in E.
  cbn [filter] in *. rewrite IH.
  destruct (tied z x) eqn:Hx; [|reflexivity].
  destruct (tied z y) eqn:Hy; [|reflexivity].
  unfold tied in Hx, Hy.
  apply andb_true_iff in Hx as [_ Hxz]. apply andb_true_iff in Hy as [Hzy _].
  apply Z.leb_le in Hxz, Hzy.
  pose proof (cmp_trans x z y Hxz Hzy). lia.
Qed.

Lemma sort_stable (z : A) (l : list A) :
  filter (tied z) (sort cmp l) = filter (tied z) l.
Proof.
  induction l as [|x l IH]; [reflexivity|].
  cbn [sort fold_right]. fold (sort cmp l).
  rewrite insert_stable. cbn [filter]. now rewrite IH.
Qed.
End Sort.

Lemma StronglySorted_impl {A : Type} (R Q : A -> A -> Prop) (l : list A) :
  (forall a b, R a b -> Q a b) -> StronglySorted R l -> StronglySorted Q l.
Proof.
  intros HRQ. induction 1 as [|x l Hs IH Hx]; constructor; [exact IH|].
  eapply Forall_impl; [|exact Hx]. auto.
Qed.

Lemma StronglySorted_firstn {A : Type} (R : A -> A -> Prop) (n : nat) (l : list A) :
  StronglySorted R l -> StronglySorted R (firstn n l).
Proof.
  intros H. revert n.
  induction H as [|x l Hs IH Hx]; intros [|n]; simpl; try constructor.
  - apply IH.
  - rewrite Forall_forall in *. intros y Hy. apply Hx.
    rewrite <- (firstn_skipn n l). apply in_or_app. now left.
Qed.

End JSFacts.

Module PlainLocaleFacts.
Import JS PlainLocale.

Lemma code_compare_total (a b : string) :
  0 < code_compare a b -> code_compare b a <= 0.
Proof.
  revert b. induction a as [|x a IH]; intros [|y b]; simpl; try lia.
  rewrite (N.compare_antisym (N_of_ascii x) (N_of_ascii y)).
  destruct (N_of_ascii x ?= N_of_ascii y)%N; simpl; auto; lia.
Qed.

Lemma code_compare_trans (a b c : string) :
  code_compare a b <= 0 -> code_compare b c <= 0 -> code_compare a c <= 0.
Proof.
  revert b c.
  induction a as [|x a IH]; intros [|y b] [|z c]; simpl; try lia.
  destruct (N.compare_spec (N_of_ascii x) (N_of_ascii y)) as [Exy|Lxy|Gxy];
    destruct (N.compare_spec (N_of_ascii y) (N_of_ascii z)) as [Eyz|Lyz|Gyz];
    try lia; intros Hab Hbc.
  - rewrite Exy, Eyz, N.compare_refl. eauto.
  - rewrite Exy. apply N.compare_lt_iff in Lyz. rewrite Lyz. lia.
  - rewrite <- Eyz. apply N.compare_lt_iff in Lxy. rewrite Lxy. lia.
  - assert (H : (N_of_ascii x < N_of_ascii z)%N) by lia.
    apply N.compare_lt_iff in H. rewrite H. lia.
Qed.

#[export] Instance plain_laws : LocaleLaws plain.
Proof.
  constructor.
  - reflexivity.
  - exact code_compare_total.
  - exact code_compare_trans.
Qed.

End PlainLocaleFacts.

(* ================================================================== *)
(** ** The device: text generation and the balance probe *)

Module DeviceFacts.
Import JS Host Device Spec JSFacts.

Ltac run_method :=
  cbv [run bind ret throw gets modify emit date_now fetch json_of log
       log_error try_catch catch_error value self' clock' events].

(** With a key, [generateText] logs the model, sends one request, and
    whatever follows sends none. *)
Lemma generateText_events (prompt : string) (model systemPrompt : option string)
    (w : World) (d : OpenRouterDevice) (t : Z) :
  apiKey d <> "" ->
  exists rest,
    events (run (generateText prompt model systemPrompt) w d t) =
      EvLog [AStr ("Generating text with model: " ++ or_else model (defaultModel d))]
      :: EvFetch (chat_request (apiKey d) (or_else model (defaultModel d))
                    (build_messages prompt systemPrompt))
      :: rest /\
    requests rest = [].
Proof.
  intros Hkey. apply truthy_true in Hkey.
  unfold generateText. run_method. rewrite Hkey. cbn [negb].
  destruct (outcome (chat_api w t _)) as [e|r]; cbn [app].
  - eexists; split; [reflexivity | reflexivity].
  - destruct (ok r); cbn [negb app].
    + destruct (json r) as [e|data]; cbn [app].
      * eexists; split; reflexivity.
      * destruct (error data) as [err|]; cbn [app].
        { eexists; split; reflexivity. }
        destruct (first_content data) as [c|]; cbn [app].
        { destruct (truthy c); cbn [app]; eexists; split; reflexivity. }
        eexists; split; reflexivity.
    + eexists; split; reflexivity.
Qed.

(** Without a key [generateText] throws at once. *)
Lemma generateText_without_key (prompt : string) (model systemPrompt : option string)
    (w : World) (d : OpenRouterDevice) (t : Z) :
  apiKey d = "" ->
  run (generateText prompt model systemPrompt) w d t =
    mkResult (inl (Error "API key not configured")) d t [].
Proof.
  intros Hkey. apply truthy_false in Hkey.
  unfold generateText. run_method. rewrite Hkey. reflexivity.
Qed.

(** C6. Called while the configured API key is empty, [generateText]
    fails with [NoKeyConfigured] and performs no effect at all: no request
    is built or sent, nothing is logged, the fields and the clock are as
    before. *)
Theorem generateText_no_key (prompt : string) (model systemPrompt : option string)
    (w : World) (d : OpenRouterDevice) (t : Z) :
  apiKey d = "" ->
  run (generateText prompt model systemPrompt) w d t =
    mkResult (inl NoKeyConfigured) d t [].
Proof.
  apply generateText_without_key.
Qed.

Lemma generateText_no_key_witness :
  run (generateText "Hi" (Some "m") (Some "Be terse")) Sample.offline
      (Sample.device "") 0 =
    mkResult (inl NoKeyConfigured) (Sample.device "") 0 [].
Proof.
  apply (generateText_no_key "Hi" (Some "m") (Some "Be terse")
           Sample.offline (Sample.device "") 0).
  reflexivity.
Defined.

(** C7. The message sequence sent by [generateText] is the single user
    message carrying the prompt when the system prompt is absent or empty,
    and the system message carrying the system prompt followed by that
    user message when it is non-empty; with a key configured exactly one
    such sequence is sent, and none without. *)
Theorem generateText_messages (prompt : string) (model systemPrompt : option string)
    (w : World) (d : OpenRouterDevice) (t : Z) :
  let out := outgoing_messages
               (events (run (generateText prompt model systemPrompt) w d t)) in
  (apiKey d = "" -> out = []) /\
  (apiKey d <> "" ->
   (systemPrompt = None \/ systemPrompt = Some "" ->
    out = [[mkChatMessage user prompt]]) /\
   (forall sp, systemPrompt = Some sp -> sp <> "" ->
    out = [[mkChatMessage system sp; mkChatMessage user prompt]])).
Proof.
  cbv zeta. split.
  - intros Hkey. now rewrite generateText_without_key.
  - intros Hkey.
    destruct (generateText_events prompt model systemPrompt w d t Hkey)
      as (rest & -> & Hrest).
    unfold outgoing_messages. cbn [requests flat_map app].
    fold (requests rest). rewrite Hrest. cbn [flat_map body chat_request app messages].
    split.
    + intros [-> | ->]; reflexivity.
    + intros sp -> Hsp. apply truthy_true in Hsp.
      unfold build_messages. rewrite Hsp. reflexivity.
Qed.

Lemma generateText_messages_witness :
  outgoing_messages
    (events (run (generateText "Hi" (Some "m") (Some "Be terse"))
               (Sample.chat_world 200 (Sample.completion " Hello! "))
               (Sample.device "sk-or-abc") 0)) =
    [[mkChatMessage system "Be terse"; mkChatMessage user "Hi"]].
Proof.
  refine (proj2 (proj2 (generateText_messages "Hi" (Some "m") (Some "Be terse")
            (Sample.chat_world 200 (Sample.completion " Hello! "))
            (Sample.device "sk-or-abc") 0) _) "Be terse" eq_refl _);
    discriminate.
Defined.

(** C1 (as amended). On a success status with a parsed payload:
    an [error] object makes the call fail with an [ApiError] carrying its
    message when it has a non-empty one, and "Unknown API error"
    otherwise, whatever the payload holds besides; without an [error]
    object, a missing or empty content makes the call fail with
    [EmptyResponse]; otherwise the call returns the content trimmed. *)
Theorem generateText_success_payload (prompt : string)
    (model systemPrompt : option string)
    (w : World) (d : OpenRouterDevice) (t : Z)
    (r : Response OpenRouterResponse) (data : OpenRouterResponse) :
  apiKey d <> "" ->
  outcome (chat_api w t (chat_request (apiKey d) (or_else model (defaultModel d))
                           (build_messages prompt systemPrompt))) = inr r ->
  ok r = true ->
  json r = inr data ->
  let v := value (run (generateText prompt model systemPrompt) w d t) in
  (forall err m, error data = Some err -> error_message err = Some m ->
                 m <> "" -> v = inl (ApiError m)) /\
  (forall err, error data = Some err ->
               error_message err = None \/ error_message err = Some "" ->
               v = inl (ApiError "Unknown API error")) /\
  (error data = None ->
   first_content data = None \/ first_content data = Some "" ->
   v = inl EmptyResponse) /\
  (forall c, error data = None -> first_content data = Some c -> c <> "" ->
             v = inr (trim c)).
Proof.
  intros Hkey Hout Hok Hjson. apply truthy_true in Hkey.
  cbv zeta. unfold generateText. run_method.
  rewrite Hkey. cbn [negb]. rewrite Hout, Hok. cbn [negb]. rewrite Hjson.
  repeat split.
  - intros err m -> Hm Hne. apply truthy_true in Hne.
    unfold or_else. rewrite Hm, Hne. reflexivity.
  - intros err -> [Hm | Hm]; unfold or_else; rewrite Hm; reflexivity.
  - intros -> [-> | ->]; reflexivity.
  - intros c -> -> Hne. apply truthy_true in Hne. rewrite Hne. reflexivity.
Qed.

Lemma generateText_success_payload_witness :
  value (run (generateText "Hi" (Some "m") (Some "Be terse"))
           (Sample.chat_world 200 (Sample.completion " Hello! "))
           (Sample.device "sk-or-abc") 0) = inr "Hello!".
Proof.
  refine (proj2 (proj2 (proj2
            (generateText_success_payload "Hi" (Some "m") (Some "Be terse")
               (Sample.chat_world 200 (Sample.completion " Hello! "))
               (Sample.device "sk-or-abc") 0
               (mkResponse 200 "" (inr (Sample.completion " Hello! ")))
               (Sample.completion " Hello! ") _ eq_refl eq_refl eq_refl)))
            " Hello! " eq_refl eq_refl _);
    discriminate.
Defined.

(** C1, the claim as stated fails: the payload below holds an [error]
    object without a message and an extractable content; the call does
    not return the content, it fails with "Unknown API error". *)
Lemma generateText_unexplained_error :
  error Sample.unexplained_error = Some (mkErrorInfo None) /\
  first_content Sample.unexplained_error = Some "hi" /\
  value (run (generateText "Hi" None None)
           (Sample.chat_world 200 Sample.unexplained_error)
           (Sample.device "sk-or-abc") 0) = inl (Error "Unknown API error") /\
  value (run (generateText "Hi" None None)
           (Sample.chat_world 200 Sample.unexplained_error)
           (Sample.device "sk-or-abc") 0) <> inr (trim "hi").
Proof.
  repeat split. discriminate.
Qed.

(** Scenario: the payload [{error:{message:"insufficient_quota"}}] with
    status 200 makes the call fail with that message. *)
Example generateText_insufficient_quota :
  value (run (generateText "Hi" None None)
           (Sample.chat_world 200
              (mkOpenRouterResponse None
                 (Some (mkErrorInfo (Some "insufficient_quota")))))
           (Sample.device "sk-or-abc") 0) =
    inl (ApiError "insufficient_quota").
Proof.
  reflexivity.
Qed.

(** *** The balance probe *)

Lemma probe_cases (d : OpenRouterDevice) (w : World) (t : Z) :
  ProbeFailure d w t \/ exists c, ProbeReads d w t c.
Proof.
  destruct (string_dec (apiKey d) "") as [Hkey|Hkey].
  - left. now apply probe_no_key.
  - destruct (outcome (credits_api w t (credits_request (apiKey d))))
      as [e|r] eqn:Hout.
    + left. eapply probe_transport; eauto.
    + destruct (ok r) eqn:Hok.
      * destruct (credits_of r) as [c|] eqn:Hc.
        { right. exists c. split; [exact Hkey|]. exists r. auto. }
        left. eapply probe_no_data; eauto.
      * left. eapply probe_status; eauto.
Qed.

Lemma checkCredits_failure (d : OpenRouterDevice) (w : World) (t : Z) :
  ProbeFailure d w t ->
  published (events (run checkCredits w d t)) = [] /\
  self' (run checkCredits w d t) = d.
Proof.
  intros [Hkey | e Hkey Hout | r Hkey Hout Hok | r Hkey Hout Hok Hdata];
    unfold checkCredits; run_method.
  - apply truthy_false in Hkey. rewrite Hkey. split; reflexivity.
  - apply truthy_true in Hkey. rewrite Hkey. cbn [negb].
    rewrite Hout. split; reflexivity.
  - apply truthy_true in Hkey. rewrite Hkey. cbn [negb].
    rewrite Hout, Hok. split; reflexivity.
  - apply truthy_true in Hkey. rewrite Hkey. cbn [negb].
    rewrite Hout, Hok. cbn [negb].
    unfold credits_of in Hdata. destruct (json r) as [e|p].
    + split; reflexivity.
    + rewrite Hdata. split; reflexivity.
Qed.

Lemma checkCredits_read (d : OpenRouterDevice) (w : World) (t : Z)
    (c : CreditsData) :
  ProbeReads d w t c ->
  let remaining := VNum (total_credits c - total_usage c)%float in
  published (events (run checkCredits w d t)) =
    [(openrouter_credits, remaining)] /\
  self' (run checkCredits w d t) =
    match capability_sink w openrouter_credits remaining with
    | None => store openrouter_credits remaining d
    | Some _ => d
    end.
Proof.
  intros (Hkey & r & Hout & Hok & Hdata). cbv zeta.
  apply truthy_true in Hkey.
  unfold checkCredits. run_method. rewrite Hkey. cbn [negb].
  rewrite Hout, Hok. cbn [negb].
  unfold credits_of in Hdata. destruct (json r) as [e|p]; [discriminate|].
  rewrite Hdata. unfold setCapabilityValue.
  destruct (capability_sink w openrouter_credits _); split; reflexivity.
Qed.

(** C9. A run of [checkCredits] that fails (no key, transport failure,
    non-success status, or a success payload without the credits data)
    writes no capability value and leaves the device, with its published
    credits, as it was.  A run that reads the credits writes
    [total_credits - total_usage] to the credits capability, which holds
    that value once the host accepts the write.  Hence a run that writes
    a capability value is a successful read. *)
Theorem checkCredits_publishing (d : OpenRouterDevice) (w : World) (t : Z) :
  let r := run checkCredits w d t in
  (ProbeFailure d w t ->
   published (events r) = [] /\ self' r = d /\
   credits_value (self' r) = credits_value d) /\
  (forall c, ProbeReads d w t c ->
     let remaining := VNum (total_credits c - total_usage c)%float in
     published (events r) = [(openrouter_credits, remaining)] /\
     (capability_sink w openrouter_credits remaining = None ->
      credits_value (self' r) = Some remaining)) /\
  (published (events r) <> [] -> exists c, ProbeReads d w t c).
Proof.
  cbv zeta. split; [|split].
  - intros Hf. destruct (checkCredits_failure d w t Hf) as [Hnil Hself].
    rewrite Hself. auto.
  - intros c Hread. destruct (checkCredits_read d w t c Hread) as [Hpub Hself].
    split; [exact Hpub|].
    intros Hsink. rewrite Hself, Hsink. reflexivity.
  - intros Hpub. destruct (probe_cases d w t) as [Hf | Hr]; [|exact Hr].
    destruct (checkCredits_failure d w t Hf) as [Hnil _]. contradiction.
Qed.

(** Scenario: the balance probe fails after a successful read of 5.00;
    the published value remains 5.00. *)
Lemma checkCredits_publishing_witness :
  let d := mkDevice "sk-or-abc" "m" (Some (VBool true)) (Some (VNum 5%float)) in
  published (events (run checkCredits Sample.offline d 0)) = [] /\
  self' (run checkCredits Sample.offline d 0) = d /\
  credits_value (self' (run checkCredits Sample.offline d 0)) =
    Some (VNum 5%float).
Proof.
  cbv zeta.
  refine (proj1 (checkCredits_publishing
            (mkDevice "sk-or-abc" "m" (Some (VBool true)) (Some (VNum 5%float)))
            Sample.offline 0) _).
  apply (probe_transport _ _ _ (TypeError "fetch failed")).
  - discriminate.
  - reflexivity.
Defined.

End DeviceFacts.

(* ================================================================== *)
(** ** The driver: model cache, autocomplete, pairing *)

Module DriverFacts.
Import JS Host Driver Spec JSFacts.

Ltac run_method :=
  cbv [run bind ret throw gets modify emit date_now fetch json_of log
       log_error try_catch value self' clock' events].

(** *** The model cache *)

Lemma cache_valid_fresh (d : OpenRouterDriver) (t : Z) :
  modelsCache d <> [] -> t - modelsCacheTime d < CACHE_TTL ->
  cache_valid d t = true.
Proof.
  intros Hne Hage. unfold cache_valid.
  apply andb_true_iff. split.
  - destruct (modelsCache d); [contradiction | reflexivity].
  - now apply Z.ltb_lt.
Qed.

Lemma fetchModels_hit (dev : HomeyDevice) (w : World) (d : OpenRouterDriver) (t : Z) :
  cache_valid d t = true ->
  run (fetchModels dev) w d t = mkResult (inr (modelsCache d)) d t [].
Proof.
  intros Hvalid. unfold fetchModels. run_method. rewrite Hvalid. reflexivity.
Qed.

(** On a stale or empty cache, a failed refresh answers the fallback and
    leaves the driver as it was. *)
Lemma fetchModels_failure (dev : HomeyDevice) (w : World) (d : OpenRouterDriver) (t : Z) :
  cache_valid d t = false -> RefreshFailure dev w t ->
  value (run (fetchModels dev) w d t) = inr getDefaultModels /\
  self' (run (fetchModels dev) w d t) = d.
Proof.
  intros Hstale Hfail. unfold fetchModels. run_method. rewrite Hstale.
  destruct Hfail as [Hkey | key e Hdev Hkey Hout | key r Hdev Hkey Hout Hok
                    | key r Hdev Hkey Hout Hok Hdata].
  - destruct (getSetting_apiKey dev) as [key|]; [|split; reflexivity].
    cbn [truthy_opt] in Hkey. rewrite Hkey. split; reflexivity.
  - rewrite Hdev, Hkey. cbn [negb]. rewrite Hout. split; reflexivity.
  - rewrite Hdev, Hkey. cbn [negb]. rewrite Hout, Hok. split; reflexivity.
  - rewrite Hdev, Hkey. cbn [negb]. rewrite Hout, Hok. cbn [negb].
    unfold models_of in Hdata. destruct (json r) as [e|p].
    + split; reflexivity.
    + rewrite Hdata. split; reflexivity.
Qed.

(** On a stale or empty cache, a successful refresh replaces both cache
    fields and answers the new catalog. *)
Lemma fetchModels_refresh (dev : HomeyDevice) (w : World) (d : OpenRouterDriver)
    (t : Z) (key : string) (r : Response ModelsResponse) (l : list OpenRouterModel) :
  cache_valid d t = false ->
  getSetting_apiKey dev = Some key -> truthy key = true ->
  outcome (models_api w t (Device.models_request key)) = inr r ->
  ok r = true -> models_of r = Some l ->
  let catalog := map (fun m => mkModel (id m) (name m)) l in
  let t' := t + latency (models_api w t (Device.models_request key)) in
  run (fetchModels dev) w d t =
    mkResult (inr catalog) (mkDriver catalog t') t'
      [EvFetch (Device.models_request key)].
Proof.
  intros Hstale Hdev Hkey Hout Hok Hdata. cbv zeta.
  unfold fetchModels. run_method. rewrite Hstale, Hdev, Hkey. cbn [negb].
  rewrite Hout, Hok. cbn [negb].
  unfold models_of in Hdata. destruct (json r) as [e|p]; [discriminate|].
  rewrite Hdata. reflexivity.
Qed.

(** [fetchModels] never throws. *)
Lemma fetchModels_returns (dev : HomeyDevice) (w : World) (d : OpenRouterDriver) (t : Z) :
  exists catalog, value (run (fetchModels dev) w d t) = inr catalog.
Proof.
  unfold fetchModels. run_method.
  destruct (cache_valid d t); [eexists; reflexivity|].
  destruct (getSetting_apiKey dev) as [key|]; [|eexists; reflexivity].
  destruct (truthy key); cbn [negb]; [|eexists; reflexivity].
  destruct (outcome (models_api w t _)) as [e|r]; [eexists; reflexivity|].
  destruct (ok r); cbn [negb]; [|eexists; reflexivity].
  destruct (json r) as [e|p]; [eexists; reflexivity|].
  destruct (models_data p); eexists; reflexivity.
Qed.

(** C4. While the cache is non-empty and younger than the TTL of five
    minutes, [fetchModels] answers the cached sequence itself, sends
    nothing and changes nothing; so two calls within the TTL, whatever
    the device handle, the world and the time of each, answer the same
    sequence. *)
Theorem fetchModels_cached (d : OpenRouterDriver) :
  modelsCache d <> [] ->
  CACHE_TTL = 300000 /\
  (forall dev w t,
     t - modelsCacheTime d < CACHE_TTL ->
     run (fetchModels dev) w d t = mkResult (inr (modelsCache d)) d t []) /\
  (forall dev1 w1 t1 dev2 w2 t2,
     t1 - modelsCacheTime d < CACHE_TTL ->
     t2 - modelsCacheTime d < CACHE_TTL ->
     let r1 := run (fetchModels dev1) w1 d t1 in
     let r2 := run (fetchModels dev2) w2 (self' r1) t2 in
     value r1 = inr (modelsCache d) /\ value r2 = value r1 /\
     requests (events r1 ++ events r2) = []).
Proof.
  intros Hne. split; [reflexivity|]. split.
  - intros dev w t Hage. apply fetchModels_hit. now apply cache_valid_fresh.
  - intros dev1 w1 t1 dev2 w2 t2 H1 H2. cbv zeta.
    rewrite (fetchModels_hit dev1 w1 d t1) by now apply cache_valid_fresh.
    cbn [self' value events].
    rewrite (fetchModels_hit dev2 w2 d t2) by now apply cache_valid_fresh.
    repeat split.
Qed.

Lemma fetchModels_cached_witness :
  let d := mkDriver [mkModel "openai/gpt-4.1" "GPT-4.1"; mkModel "acme/foo" "foo"] 1000 in
  run (fetchModels (mkHomeyDevice None)) Sample.offline d 300999 =
    mkResult (inr (modelsCache d)) d 300999 [].
Proof.
  cbv zeta.
  refine (proj1 (proj2 (fetchModels_cached
            (mkDriver [mkModel "openai/gpt-4.1" "GPT-4.1"; mkModel "acme/foo" "foo"] 1000)
            _)) (mkHomeyDevice None) Sample.offline 300999 _).
  - discriminate.
  - reflexivity.
Defined.

(** *** The fallback list *)

Lemma default_name_segment (vendor seg : string) :
  has_char "/" vendor = false -> has_char "/" seg = false -> seg <> "" ->
  default_name (vendor ++ "/" ++ seg) = seg.
Proof.
  intros Hv Hs Hne. unfold default_name.
  change ("/" ++ seg)%string with (String "/" seg).
  rewrite (split_app "/" vendor seg Hv), (split_no_sep "/" seg Hs).
  cbn [nth_error or_else]. apply truthy_true in Hne. now rewrite Hne.
Qed.

Lemma default_name_whole (s : string) :
  has_char "/" s = false -> default_name s = s.
Proof.
  intros Hs. unfold default_name. rewrite (split_no_sep "/" s Hs).
  reflexivity.
Qed.

Lemma default_name_no_segment (vendor : string) :
  has_char "/" vendor = false ->
  default_name (vendor ++ "/") = (vendor ++ "/")%string.
Proof.
  intros Hv. unfold default_name.
  rewrite (split_app "/" vendor "" Hv). reflexivity.
Qed.

Ltac split_at vendor :=
  exists vendor; vm_compute; repeat split; discriminate.

Lemma getDefaultModels_names :
  Forall (fun m => exists vendor,
            id m = (vendor ++ "/" ++ name m)%string /\
            has_char "/" vendor = false /\
            has_char "/" (name m) = false /\ name m <> "")
         getDefaultModels.
Proof.
  unfold getDefaultModels, FEATURED_MODELS. cbn [map].
  repeat (apply Forall_cons;
          [ first [ split_at "google" | split_at "openai" | split_at "anthropic"
                  | split_at "deepseek" | split_at "meta-llama"
                  | split_at "mistralai" ] |]).
  apply Forall_nil.
Qed.

(** C5. When the cache is stale or empty and the refresh fails (no key
    on the device, transport failure, non-success status, or a payload
    that does not parse or lacks the list), [fetchModels] answers the
    fallback and leaves both cache fields as they were.  The fallback
    pairs each featured id, in order, with the segment after its "/";
    in general the name derived from an id is that segment, and the
    whole id when there is no separator or nothing after it. *)
Theorem fetchModels_failed_refresh :
  (forall dev w d t,
     cache_valid d t = false -> RefreshFailure dev w t ->
     let r := run (fetchModels dev) w d t in
     value r = inr getDefaultModels /\
     modelsCache (self' r) = modelsCache d /\
     modelsCacheTime (self' r) = modelsCacheTime d) /\
  map id getDefaultModels = FEATURED_MODELS /\
  Forall (fun m => exists vendor,
            id m = (vendor ++ "/" ++ name m)%string /\
            has_char "/" vendor = false /\
            has_char "/" (name m) = false /\ name m <> "")
         getDefaultModels /\
  (forall vendor seg,
     has_char "/" vendor = false -> has_char "/" seg = false -> seg <> "" ->
     default_name (vendor ++ "/" ++ seg) = seg) /\
  (forall s, has_char "/" s = false -> default_name s = s) /\
  (forall vendor, has_char "/" vendor = false ->
     default_name (vendor ++ "/") = (vendor ++ "/")%string).
Proof.
  split; [|split; [reflexivity|split; [exact getDefaultModels_names|]]].
  - intros dev w d t Hstale Hfail. cbv zeta.
    destruct (fetchModels_failure dev w d t Hstale Hfail) as [Hv Hs].
    rewrite Hs. auto.
  - split; [exact default_name_segment|].
    split; [exact default_name_whole | exact default_name_no_segment].
Qed.

(** A stale cache and an unreachable API: the fallback is answered and
    the stale cache stays. *)
Lemma fetchModels_failed_refresh_witness :
  let d := mkDriver [mkModel "acme/foo" "foo"] 1000 in
  let r := run (fetchModels (mkHomeyDevice (Some "sk-or-abc")))
             Sample.offline d 400000 in
  value r = inr getDefaultModels /\
  modelsCache (self' r) = [mkModel "acme/foo" "foo"] /\
  modelsCacheTime (self' r) = 1000.
Proof.
  cbv zeta.
  refine (proj1 fetchModels_failed_refresh
            (mkHomeyDevice (Some "sk-or-abc")) Sample.offline
            (mkDriver [mkModel "acme/foo" "foo"] 1000) 400000 _ _).
  - reflexivity.
  - apply (refresh_transport _ _ _ "sk-or-abc" (TypeError "fetch failed"));
      reflexivity.
Defined.

End DriverFacts.

(* ================================================================== *)
(** ** The autocomplete matcher *)

Module AutocompleteFacts.
Import JS Host Driver Spec JSFacts DriverFacts.

Section WithLocale.
Context {L : Locale}.

Lemma matches_spec (q : string) (m : OpenRouterModel) :
  matches q m = true <->
  occurs_in q (toLowerCase (id m)) \/ occurs_in q (toLowerCase (name m)).
Proof.
  unfold matches. now rewrite orb_true_iff, !includes_spec.
Qed.

Lemma matching_In (q : string) (C : list OpenRouterModel) (m : OpenRouterModel) :
  In m (matching q C) <->
  In m C /\
  (occurs_in (toLowerCase q) (toLowerCase (id m)) \/
   occurs_in (toLowerCase q) (toLowerCase (name m))).
Proof.
  unfold matching. now rewrite filter_In, matches_spec.
Qed.

(** What the method answers, in terms of the catalog it fetched. *)
Lemma getModelAutocomplete_value (q : string) (dev : HomeyDevice) (w : World)
    (d : OpenRouterDriver) (t : Z) :
  exists catalog,
    value (run (fetchModels dev) w d t) = inr catalog /\
    value (run (getModelAutocomplete q dev) w d t) =
      inr (map to_item (firstn 50 (ranked q catalog))).
Proof.
  destruct (fetchModels_returns dev w d t) as [catalog Hc].
  exists catalog. split; [exact Hc|].
  unfold getModelAutocomplete, run, bind in *. rewrite Hc. reflexivity.
Qed.

(** The comparator agrees with the ranking of the specification. *)
Lemma compareModels_ranks (a b : OpenRouterModel) :
  compareModels a b <= 0 <-> ranks_before a b.
Proof.
  unfold compareModels, ranks_before, featured, position.
  pose proof (indexOf_includes FEATURED_MODELS (id a)) as Ha.
  pose proof (indexOf_includes FEATURED_MODELS (id b)) as Hb.
  destruct (array_includes FEATURED_MODELS (id a));
    destruct (array_includes FEATURED_MODELS (id b)); cbn [andb negb];
    split; intros H; try lia; intuition (try discriminate; try lia).
Qed.

Context {LL : LocaleLaws L}.

Lemma compareModels_total (a b : OpenRouterModel) :
  0 < compareModels a b -> compareModels b a <= 0.
Proof.
  unfold compareModels.
  destruct (array_includes FEATURED_MODELS (id a));
    destruct (array_includes FEATURED_MODELS (id b)); cbn [andb negb];
    try lia.
  apply localeCompare_total.
Qed.

Lemma compareModels_trans (a b c : OpenRouterModel) :
  compareModels a b <= 0 -> compareModels b c <= 0 -> compareModels a c <= 0.
Proof.
  unfold compareModels.
  destruct (array_includes FEATURED_MODELS (id a));
    destruct (array_includes FEATURED_MODELS (id b));
    destruct (array_includes FEATURED_MODELS (id c)); cbn [andb negb];
    try lia.
  apply localeCompare_trans.
Qed.

Lemma ranked_sorted (q : string) (C : list OpenRouterModel) :
  StronglySorted ranks_before (ranked q C).
Proof.
  unfold ranked.
  apply (StronglySorted_impl (fun a b => compareModels a b <= 0)).
  - intros a b. apply compareModels_ranks.
  - apply sort_sorted.
    + exact compareModels_total.
    + exact compareModels_trans.
Qed.

(** Models the comparator does not separate stay in catalog order. *)
Lemma ranked_stable (q : string) (C : list OpenRouterModel) (z : OpenRouterModel) :
  filter (fun y => (compareModels z y <=? 0) && (compareModels y z <=? 0))
         (ranked q C) =
  filter (fun y => (compareModels z y <=? 0) && (compareModels y z <=? 0))
         (matching q C).
Proof.
  unfold ranked. apply sort_stable. exact compareModels_trans.
Qed.

End WithLocale.

(** C3. The models kept by the matcher are models of the catalog; a
    model of the catalog is kept exactly when the lower-cased query occurs
    in its lower-cased id or in its lower-cased name; the empty query
    keeps the whole catalog; and every entry answered by
    [getModelAutocomplete] is made from a kept model of the catalog it
    fetched. *)
Theorem matching_spec {L : Locale} {LL : LocaleLaws L}
    (q : string) (C : list OpenRouterModel) :
  incl (matching q C) C /\
  (forall m,
     In m (matching q C) <->
     In m C /\
     (occurs_in (toLowerCase q) (toLowerCase (id m)) \/
      occurs_in (toLowerCase q) (toLowerCase (name m)))) /\
  matching "" C = C /\
  (forall dev w d t, exists catalog,
     value (run (fetchModels dev) w d t) = inr catalog /\
     forall items,
       value (run (getModelAutocomplete q dev) w d t) = inr items ->
       forall it, In it items ->
         exists m, In m (matching q catalog) /\ it = to_item m).
Proof.
  split; [|split; [|split]].
  - intros m Hm. now apply matching_In in Hm.
  - apply matching_In.
  - unfold matching. rewrite toLowerCase_empty.
    induction C as [|m C IH]; [reflexivity|].
    cbn [filter]. unfold matches at 1. rewrite includes_empty.
    cbn [orb]. now rewrite IH.
  - intros dev w d t.
    destruct (getModelAutocomplete_value q dev w d t) as (catalog & Hc & Hv).
    exists catalog. split; [exact Hc|].
    intros items Hitems it Hit. rewrite Hv in Hitems.
    injection Hitems as <-.
    apply in_map_iff in Hit as (m & <- & Hm).
    exists m. split; [|reflexivity].
    apply (Permutation_in m (sort_perm compareModels (matching q catalog))).
    unfold ranked in Hm.
    rewrite <- (firstn_skipn 50 (sort compareModels (matching q catalog))).
    apply in_or_app. now left.
Qed.

(** With ASCII case folding, the query "GPT" keeps the model
    "openai/gpt-4.1" and leaves "acme/foo" out. *)
Lemma matching_spec_witness :
  @matching PlainLocale.plain "GPT"
    [mkModel "openai/gpt-4.1" "GPT-4.1"; mkModel "acme/foo" "foo"] =
    [mkModel "openai/gpt-4.1" "GPT-4.1"] /\
  incl (@matching PlainLocale.plain "GPT"
          [mkModel "openai/gpt-4.1" "GPT-4.1"; mkModel "acme/foo" "foo"])
       [mkModel "openai/gpt-4.1" "GPT-4.1"; mkModel "acme/foo" "foo"].
Proof.
  split; [reflexivity|].
  exact (proj1 (@matching_spec PlainLocale.plain PlainLocaleFacts.plain_laws "GPT"
                  [mkModel "openai/gpt-4.1" "GPT-4.1"; mkModel "acme/foo" "foo"])).
Defined.

(** C2. [getModelAutocomplete] answers the first 50 entries of the kept
    models rearranged so that, for any two of them, the earlier ranks
    before the later: a featured model before a non-featured one, two
    featured models by position in the featured list, two non-featured
    models by [localeCompare] of their names; each entry is the triple
    of the id, the name, and the id again as description. *)
Theorem getModelAutocomplete_ranking {L : Locale} {LL : LocaleLaws L}
    (q : string) (dev : HomeyDevice) (w : World) (d : OpenRouterDriver) (t : Z) :
  exists catalog,
    value (run (fetchModels dev) w d t) = inr catalog /\
    Permutation (ranked q catalog) (matching q catalog) /\
    StronglySorted ranks_before (ranked q catalog) /\
    (forall a b, ranks_before a b -> ~ (featured a = false /\ featured b = true)) /\
    value (run (getModelAutocomplete q dev) w d t) =
      inr (map (fun m => mkItem (id m) (name m) (id m))
             (firstn 50 (ranked q catalog))) /\
    StronglySorted ranks_before (firstn 50 (ranked q catalog)).
Proof.
  destruct (getModelAutocomplete_value q dev w d t) as (catalog & Hc & Hv).
  exists catalog. split; [exact Hc|].
  split; [apply sort_perm|].
  split; [apply ranked_sorted|].
  split.
  - intros a b [[Ha Hb] | [(Ha & Hb & _) | (Ha & Hb & _)]] [Ha' Hb']; congruence.
  - split; [exact Hv|]. apply StronglySorted_firstn, ranked_sorted.
Qed.

(** Scenario: the catalog holds "openai/gpt-4.1" and "acme/foo", the
    query is empty; the featured model comes first. *)
Lemma getModelAutocomplete_ranking_witness :
  value (run (@getModelAutocomplete PlainLocale.plain "" (mkHomeyDevice None))
           Sample.offline
           (mkDriver [mkModel "acme/foo" "foo"; mkModel "openai/gpt-4.1" "gpt-4.1"] 0)
           1000) =
    inr [mkItem "openai/gpt-4.1" "gpt-4.1" "openai/gpt-4.1";
         mkItem "acme/foo" "foo" "acme/foo"].
Proof.
  destruct (@getModelAutocomplete_ranking PlainLocale.plain
              PlainLocaleFacts.plain_laws "" (mkHomeyDevice None) Sample.offline
              (mkDriver [mkModel "acme/foo" "foo"; mkModel "openai/gpt-4.1" "gpt-4.1"] 0)
              1000) as (catalog & Hc & _ & _ & _ & Hv & _).
  rewrite Hv. injection Hc as <-. reflexivity.
Defined.

End AutocompleteFacts.

(* ================================================================== *)
(** ** The pairing login *)

Module PairingFacts.
Import JS Host Driver Spec JSFacts DriverFacts.

(** C10. When the submitted API key is missing, or its trimmed value is
    empty or does not start with "sk-or-", the login handler fails with
    the invalid-key error and performs no effect: no request is sent and
    the pending pairing credentials are as before. *)
Theorem login_rejects_key (data : LoginData) (w : World) (p : PairSession) (t : Z) :
  (username data = None ->
   run (login data) w p t = mkResult (inl InvalidKey) p t []) /\
  (forall u, username data = Some u ->
     trim u = "" \/ startsWith (trim u) "sk-or-" = false ->
     run (login data) w p t = mkResult (inl InvalidKey) p t []).
Proof.
  split.
  - intros Hu. unfold login. rewrite Hu. reflexivity.
  - intros u Hu Hbad. unfold login. rewrite Hu. cbn [option_map].
    assert (Hguard : negb (truthy (trim u)) || negb (startsWith (trim u) "sk-or-") = true).
    { destruct Hbad as [He | Hp].
      - apply truthy_false in He. now rewrite He.
      - rewrite Hp. apply orb_true_r. }
    rewrite Hguard. reflexivity.
Qed.

Lemma login_rejects_key_witness :
  run (login (mkLoginData (Some "  my-secret-key ") (Some "openai/gpt-4.1")))
      Sample.offline pairData_init 0 =
    mkResult (inl InvalidKey) pairData_init 0 [].
Proof.
  refine (proj2 (login_rejects_key
            (mkLoginData (Some "  my-secret-key ") (Some "openai/gpt-4.1"))
            Sample.offline pairData_init 0) "  my-secret-key " eq_refl _).
  right. reflexivity.
Defined.

(** A well-formed key that the API accepts is stored, trimmed, with the
    default model. *)
Lemma login_accepts_key :
  run (login (mkLoginData (Some " sk-or-abc ") None))
      (Sample.models_world 200 (mkModelsResponse (Some []))) pairData_init 0 =
    mkResult (inr true)
      (mkPairSession "sk-or-abc" "google/gemini-3-flash-preview") 120
      [EvFetch (Device.models_request "sk-or-abc")].
Proof.
  reflexivity.
Qed.

End PairingFacts.

(* ================================================================== *)
(** ** The requests sent to the remote API *)

Module RequestFacts.
Import JS Host Spec JSFacts.

Ltac run_method :=
  cbv [run bind ret throw gets modify emit date_now fetch json_of log
       log_error try_catch Device.catch_error Device.setCapabilityValue
       value self' clock' events].

Ltac one_request :=
  cbn [requests flat_map app In]; intros [<- | []]; reflexivity.

Lemma generateText_requests (prompt : string) (model systemPrompt : option string)
    (w : World) (d : Device.OpenRouterDevice) (t : Z) (req : Request) :
  In req (requests (events (run (Device.generateText prompt model systemPrompt) w d t))) ->
  req = Device.chat_request (Device.apiKey d)
          (or_else model (Device.defaultModel d))
          (Device.build_messages prompt systemPrompt).
Proof.
  destruct (string_dec (Device.apiKey d) "") as [Hkey|Hkey].
  - rewrite DeviceFacts.generateText_without_key by exact Hkey.
    intros [].
  - destruct (DeviceFacts.generateText_events prompt model systemPrompt w d t Hkey)
      as (rest & -> & Hrest).
    cbn [requests flat_map app]. fold (requests rest). rewrite Hrest.
    intros [<- | []]. reflexivity.
Qed.

Lemma checkCredits_requests (w : World) (d : Device.OpenRouterDevice) (t : Z)
    (req : Request) :
  In req (requests (events (run Device.checkCredits w d t))) ->
  req = Device.credits_request (Device.apiKey d).
Proof.
  unfold Device.checkCredits. run_method.
  destruct (truthy (Device.apiKey d)); cbn [negb]; [|intros []].
  destruct (outcome (credits_api w t _)) as [e|r]; [one_request|].
  destruct (ok r); cbn [negb]; [|one_request].
  destruct (json r) as [e|p]; [one_request|].
  destruct (credits_data p) as [c|]; [|one_request].
  destruct (capability_sink w _ _); one_request.
Qed.

Lemma checkApiStatus_requests (w : World) (d : Device.OpenRouterDevice) (t : Z)
    (req : Request) :
  In req (requests (events (run Device.checkApiStatus w d t))) ->
  req = Device.models_request (Device.apiKey d).
Proof.
  unfold Device.checkApiStatus. run_method.
  destruct (outcome (models_api w t _)) as [e|r].
  - destruct (capability_sink w _ _); one_request.
  - destruct (capability_sink w _ _); one_request.
Qed.

Lemma fetchModels_requests (dev : Driver.HomeyDevice) (w : World)
    (d : Driver.OpenRouterDriver) (t : Z) (req : Request) :
  In req (requests (events (run (Driver.fetchModels dev) w d t))) ->
  exists key, Driver.getSetting_apiKey dev = Some key /\
              req = Device.models_request key.
Proof.
  unfold Driver.fetchModels. run_method.
  destruct (Driver.cache_valid d t); [intros []|].
  destruct (Driver.getSetting_apiKey dev) as [key|]; [|intros []].
  intros H. exists key. split; [reflexivity|]. revert H.
  destruct (truthy key); cbn [negb]; [|intros []].
  destruct (outcome (models_api w t _)) as [e|r]; [one_request|].
  destruct (ok r); cbn [negb]; [|one_request].
  destruct (json r) as [e|p]; [one_request|].
  destruct (models_data p); one_request.
Qed.

Lemma validateApiKey_requests {S : Type} (key : string) (w : World) (s : S)
    (t : Z) (req : Request) :
  In req (requests (events (run (Driver.validateApiKey key) w s t))) ->
  req = Device.models_request key.
Proof.
  unfold Driver.validateApiKey. run_method.
  destruct (outcome (models_api w t _)) as [e|r]; one_request.
Qed.

(** C8 (as amended). The chat-completion request of [generateText] is a
    POST that bounds the output to 500 tokens and carries the HTTP-Referer
    and X-Title headers besides the bearer token.  The requests for the
    model list and for the credits are GET requests without a body, hence
    without a token bound, whose only header is the bearer token. *)
Theorem remote_requests_shape :
  (forall prompt model systemPrompt w d t req,
     In req (requests (events (run (Device.generateText prompt model systemPrompt) w d t))) ->
     method req = POST /\ attaches_max_tokens req = true /\
     sends_identification req = true /\
     In ("Authorization", "Bearer " ++ Device.apiKey d)%string (headers req)) /\
  (forall w d t req,
     In req (requests (events (run Device.checkCredits w d t))) ->
     req = Device.credits_request (Device.apiKey d)) /\
  (forall w d t req,
     In req (requests (events (run Device.checkApiStatus w d t))) ->
     req = Device.models_request (Device.apiKey d)) /\
  (forall dev w d t req,
     In req (requests (events (run (Driver.fetchModels dev) w d t))) ->
     exists key, Driver.getSetting_apiKey dev = Some key /\
                 req = Device.models_request key) /\
  (forall key w (p : Driver.PairSession) t req,
     In req (requests (events (run (Driver.validateApiKey key) w p t))) ->
     req = Device.models_request key) /\
  (forall key req,
     req = Device.credits_request key \/ req = Device.models_request key ->
     method req = GET /\ body req = None /\
     headers req = [("Authorization", "Bearer " ++ key)%string] /\
     attaches_max_tokens req = false /\ sends_identification req = false).
Proof.
  split; [|split; [|split; [|split; [|split]]]].
  - intros prompt model systemPrompt w d t req Hreq.
    apply generateText_requests in Hreq. subst req.
    repeat split. now left.
  - apply checkCredits_requests.
  - apply checkApiStatus_requests.
  - apply fetchModels_requests.
  - intros key w p t req. apply validateApiKey_requests.
  - intros key req [-> | ->]; repeat split.
Qed.

Lemma remote_requests_shape_witness :
  method (Device.credits_request "sk-or-abc") = GET /\
  body (Device.credits_request "sk-or-abc") = None /\
  headers (Device.credits_request "sk-or-abc") =
    [("Authorization", "Bearer sk-or-abc")] /\
  attaches_max_tokens (Device.credits_request "sk-or-abc") = false /\
  sends_identification (Device.credits_request "sk-or-abc") = false.
Proof.
  refine (proj2 (proj2 (proj2 (proj2 (proj2 remote_requests_shape))))
            "sk-or-abc" (Device.credits_request "sk-or-abc") _).
  left. reflexivity.
Defined.

(** C8, the claim as stated fails: the balance probe sends one request,
    which carries neither a token bound nor the identification headers. *)
Lemma checkCredits_request_plain :
  requests (events (run Device.checkCredits Sample.offline
                      (Sample.device "sk-or-abc") 0)) =
    [Device.credits_request "sk-or-abc"] /\
  attaches_max_tokens (Device.credits_request "sk-or-abc") = false /\
  sends_identification (Device.credits_request "sk-or-abc") = false.
Proof.
  repeat split.
Qed.

End RequestFacts.

(* ================================================================== *)
(** ** The device: every course of [generateText] and of the probes *)

Module DeviceCourses.
Import JS Host Device Spec Outcomes JSFacts.

Ltac run_method :=
  cbv [run bind ret throw gets modify emit date_now fetch json_of log
       log_error try_catch catch_error setCapabilityValue
       value self' clock' events].

(** With a key, a run of [generateText] is its log line, its request,
    and one of the six courses of [Generation]. *)
Lemma generateText_run (prompt : string) (model systemPrompt : option string)
    (w : World) (d : OpenRouterDevice) (t : Z) :
  apiKey d <> "" ->
  let selected := or_else model (defaultModel d) in
  let req := chat_request (apiKey d) selected (build_messages prompt systemPrompt) in
  let rep := chat_api w t req in
  exists v tail,
    Generation rep v tail /\
    run (generateText prompt model systemPrompt) w d t =
      mkResult v d (t + latency rep)
        (EvLog [AStr ("Generating text with model: " ++ selected)]
         :: EvFetch req :: tail).
Proof.
  intros Hkey. apply truthy_true in Hkey. cbv zeta.
  unfold generateText. run_method. rewrite Hkey. cbn [negb].
  destruct (outcome (chat_api w t _)) as [e|r] eqn:Hout.
  { eexists _, _. split; [eapply gen_rejected; eassumption | reflexivity]. }
  destruct (ok r) eqn:Hok; cbn [negb].
  2: { eexists _, _. split; [eapply (gen_status _ r); eassumption | reflexivity]. }
  destruct (json r) as [e|data] eqn:Hjson.
  { eexists _, _. split; [eapply (gen_unparsed _ r); eassumption | reflexivity]. }
  destruct (error data) as [err|] eqn:Herr.
  { eexists _, _. split; [eapply (gen_error _ r data); eassumption | reflexivity]. }
  destruct (first_content data) as [c|] eqn:Hc.
  - destruct (truthy c) eqn:Htc.
    + eexists _, _. split; [eapply (gen_text _ r data c); eassumption | reflexivity].
    + eexists _, _. split; [apply (gen_empty _ r data); auto | reflexivity].
      rewrite Hc. exact Htc.
  - eexists _, _. split; [apply (gen_empty _ r data); auto | reflexivity].
    now rewrite Hc.
Qed.

Lemma trim_blank (s : string) : blank s = true -> trim s = "".
Proof.
  unfold trim. intros H.
  assert (Hs : trimStart s = "").
  { induction s as [|c s IH]; [reflexivity|].
    cbn [blank] in H. apply andb_true_iff in H as [Hc Hs].
    cbn [trimStart]. rewrite Hc. auto. }
  now rewrite Hs.
Qed.



(** X2. An exception raised by [fetch] or by [response.json()] leaves
    [generateText] as the very same value: it is logged once and
    rethrown, not wrapped or replaced. *)
Theorem generateText_rethrows (prompt : string)
    (model systemPrompt : option string)
    (w : World) (d : OpenRouterDevice) (t : Z) (e : Exn) :
  apiKey d <> "" ->
  let req := chat_request (apiKey d) (or_else model (defaultModel d))
               (build_messages prompt systemPrompt) in
  (outcome (chat_api w t req) = inl e \/
   exists r, outcome (chat_api w t req) = inr r /\ ok r = true /\ json r = inl e) ->
  value (run (generateText prompt model systemPrompt) w d t) = inl e /\
  events (run (generateText prompt model systemPrompt) w d t) =
    [EvLog [AStr ("Generating text with model: " ++ or_else model (defaultModel d))];
     EvFetch req;
     EvError [AStr "Text generation failed:"; AExn e]].
Proof.
  intros Hkey req Hcase. apply truthy_true in Hkey. subst req.
  unfold generateText. run_method. rewrite Hkey. cbn [negb].
  destruct Hcase as [Hout | (r & Hout & Hok & Hjson)].
  - rewrite Hout. split; reflexivity.
  - rewrite Hout, Hok. cbn [negb]. rewrite Hjson. split; reflexivity.
Qed.

Lemma generateText_rethrows_witness :
  value (run (generateText "Hi" None None) Sample.offline
           (Sample.device "sk-or-abc") 0) = inl (TypeError "fetch failed").
Proof.
  refine (proj1 (generateText_rethrows "Hi" None None Sample.offline
                   (Sample.device "sk-or-abc") 0 (TypeError "fetch failed") _ _)).
  - discriminate.
  - left. reflexivity.
Defined.

(** X3. With a key configured, [generateText] fails exactly when its last
    effect is the log line "Text generation failed:" carrying the thrown
    value; a call that returns a text logs no error at all. *)
Theorem generateText_failure_logged (prompt : string)
    (model systemPrompt : option string)
    (w : World) (d : OpenRouterDevice) (t : Z) :
  apiKey d <> "" ->
  let r := run (generateText prompt model systemPrompt) w d t in
  (forall e, value r = inl e ->
     exists before, events r = (before ++ [failed e])%list) /\
  (forall s, value r = inr s ->
     forall args, ~ In (EvError args) (events r)).
Proof.
  intros Hkey. cbv zeta.
  destruct (generateText_run prompt model systemPrompt w d t Hkey)
    as (v & tail & Hgen & ->).
  cbn [value events]. split.
  - intros e ->. inversion Hgen; subst.
    + eexists [_; _]. reflexivity.
    + eexists [_; _; _]. reflexivity.
    + eexists [_; _]. reflexivity.
    + eexists [_; _]. reflexivity.
    + eexists [_; _]. reflexivity.
  - intros s ->. inversion Hgen; subst.
    intros args [H | [H | []]]; discriminate.
Qed.

Lemma generateText_failure_logged_witness :
  exists before,
    events (run (generateText "Hi" None None)
              (Sample.chat_world 200 Sample.unexplained_error)
              (Sample.device "sk-or-abc") 0) =
      (before ++ [failed (Error "Unknown API error")])%list.
Proof.
  refine (proj1 (generateText_failure_logged "Hi" None None
                   (Sample.chat_world 200 Sample.unexplained_error)
                   (Sample.device "sk-or-abc") 0 _)
            (Error "Unknown API error") eq_refl).
  discriminate.
Defined.

(** X4. Whatever the key, the arguments and the world, [generateText]
    leaves the fields of the device as they were and sends at most one
    request: a failed call is not retried. *)
Theorem generateText_frame (prompt : string) (model systemPrompt : option string)
    (w : World) (d : OpenRouterDevice) (t : Z) :
  self' (run (generateText prompt model systemPrompt) w d t) = d /\
  (List.length (requests (events (run (generateText prompt model systemPrompt) w d t)))
   <= 1)%nat.
Proof.
  destruct (string_dec (apiKey d) "") as [Hkey|Hkey].
  - rewrite DeviceFacts.generateText_without_key by exact Hkey.
    split; [reflexivity | cbn; lia].
  - destruct (generateText_run prompt model systemPrompt w d t Hkey)
      as (v & tail & Hgen & ->).
    split; [reflexivity|].
    inversion Hgen; subst; cbn; lia.
Qed.

(** X5. The model named in the request is the [model] argument when it
    is a non-empty string, and the default model of the device when the
    argument is absent or empty. *)
Theorem generateText_model_choice (prompt : string)
    (model systemPrompt : option string)
    (w : World) (d : OpenRouterDevice) (t : Z) (req : Request) :
  In req (requests (events (run (generateText prompt model systemPrompt) w d t))) ->
  exists b,
    body req = Some b /\
    (forall m, model = Some m -> m <> "" -> Host.model b = m) /\
    (model = None \/ model = Some "" -> Host.model b = defaultModel d).
Proof.
  intros Hreq. apply RequestFacts.generateText_requests in Hreq. subst req.
  eexists. split; [reflexivity|]. cbn [Host.model]. split.
  - intros m -> Hm. apply truthy_true in Hm. cbn [or_else]. now rewrite Hm.
  - intros [-> | ->]; reflexivity.
Qed.

Lemma generateText_model_choice_witness :
  exists b,
    body (chat_request "sk-or-abc" "google/gemini-3-flash-preview"
            [mkChatMessage user "Hi"]) = Some b /\
    Host.model b = "google/gemini-3-flash-preview".
Proof.
  destruct (generateText_model_choice "Hi" (Some "") None
              (Sample.chat_world 200 (Sample.completion "x"))
              (Sample.device "sk-or-abc") 0
              (chat_request "sk-or-abc" "google/gemini-3-flash-preview"
                 [mkChatMessage user "Hi"]))
    as (b & Hb & _ & Hdefault).
  - left. reflexivity.
  - exists b. split; [exact Hb|]. apply Hdefault. now right.
Defined.



(** X7. A content made of white space only is not an empty response: the
    call succeeds and returns the empty string. *)
Theorem generateText_blank_content (prompt : string)
    (model systemPrompt : option string)
    (w : World) (d : OpenRouterDevice) (t : Z)
    (r : Response OpenRouterResponse) (data : OpenRouterResponse) (c : string) :
  apiKey d <> "" ->
  outcome (chat_api w t (chat_request (apiKey d) (or_else model (defaultModel d))
                           (build_messages prompt systemPrompt))) = inr r ->
  ok r = true -> json r = inr data -> error data = None ->
  first_content data = Some c -> c <> "" -> blank c = true ->
  value (run (generateText prompt model systemPrompt) w d t) = inr "".
Proof.
  intros Hkey Hout Hok Hjson Herr Hc Hne Hblank.
  apply truthy_true in Hkey. apply truthy_true in Hne.
  unfold generateText. run_method. rewrite Hkey. cbn [negb].
  rewrite Hout, Hok. cbn [negb]. rewrite Hjson, Herr, Hc, Hne.
  now rewrite (trim_blank c Hblank).
Qed.

Lemma generateText_blank_content_witness :
  value (run (generateText "Hi" None None)
           (Sample.chat_world 200 (Sample.completion "  "))
           (Sample.device "sk-or-abc") 0) = inr "".
Proof.
  refine (generateText_blank_content "Hi" None None
            (Sample.chat_world 200 (Sample.completion "  "))
            (Sample.device "sk-or-abc") 0
            (mkResponse 200 "" (inr (Sample.completion "  ")))
            (Sample.completion "  ") "  " _ eq_refl eq_refl eq_refl eq_refl
            eq_refl _ eq_refl); discriminate.
Defined.

End DeviceCourses.

(* ================================================================== *)
(** ** The device: probes, settings, start-up *)

Module ProbeFacts.
Import JS Host Device DeviceLifecycle Spec Outcomes JSFacts.

Ltac run_method :=
  cbv [run bind ret throw gets modify emit date_now fetch json_of log
       log_error try_catch catch_error setCapabilityValue
       value self' clock' events].

(** The same, with the capability writes and the probes left folded. *)
Ltac run_outline :=
  cbv [run bind ret throw gets modify emit date_now fetch json_of log
       log_error try_catch value self' clock' events].

Ltac probe_split :=
  repeat match goal with
         | |- context [match outcome ?x with _ => _ end] =>
             destruct (outcome x)
         | |- context [match capability_sink ?a ?b ?c with _ => _ end] =>
             destruct (capability_sink a b c)
         | |- context [truthy ?k] => destruct (truthy k); cbn [negb]
         | |- context [ok ?r] => destruct (ok r); cbn [negb]
         | |- context [match json ?r with _ => _ end] => destruct (json r)
         | |- context [match credits_data ?p with _ => _ end] =>
             destruct (credits_data p)
         end.

Lemma result_eta {S A : Type} (r : Result S A) :
  mkResult (value r) (self' r) (clock' r) (events r) = r.
Proof.
  now destruct r.
Qed.

Lemma requests_app (a b : list Event) :
  requests (a ++ b) = (requests a ++ requests b)%list.
Proof.
  apply flat_map_app.
Qed.

(** A capability write whose rejection is logged: it always answers. *)
Lemma publish_run (c : Capability) (v : CapValue)
    (w : World) (d : OpenRouterDevice) (t : Z) :
  catch_error (setCapabilityValue c v) w d t =
    mkResult (inr tt)
      (match capability_sink w c v with
       | None => store c v d
       | Some _ => d
       end)
      t
      (EvSetCapability c v ::
       match capability_sink w c v with
       | None => []
       | Some e => [EvError [AExn e]]
       end).
Proof.
  run_method. destruct (capability_sink w c v); reflexivity.
Qed.

(** The whole run of the status probe. *)
Lemma checkApiStatus_run (w : World) (d : OpenRouterDevice) (t : Z) :
  let req := models_request (apiKey d) in
  let v := VBool (reachable w t req) in
  run checkApiStatus w d t =
    mkResult (inr (reachable w t req))
      (match capability_sink w openrouter_status v with
       | None => store openrouter_status v d
       | Some _ => d
       end)
      (t + latency (models_api w t req))
      (EvFetch req ::
       (match outcome (models_api w t req) with
        | inl e => [EvError [AStr "API status check failed:"; AExn e]]
        | inr _ => []
        end) ++
       EvSetCapability openrouter_status v ::
       match capability_sink w openrouter_status v with
       | None => []
       | Some e => [EvError [AExn e]]
       end).
Proof.
  cbv zeta. unfold checkApiStatus, reachable. run_outline.
  destruct (outcome (models_api w t (models_request (apiKey d)))) as [e|r];
    rewrite publish_run; cbn [value self' clock' events app];
    rewrite ?app_nil_r; reflexivity.
Qed.

(** The balance probe always answers, keeps the other fields, and sends
    its request exactly when a key is configured. *)
Lemma checkCredits_effects (w : World) (d : OpenRouterDevice) (t : Z) :
  value (checkCredits w d t) = inr tt /\
  apiKey (self' (checkCredits w d t)) = apiKey d /\
  defaultModel (self' (checkCredits w d t)) = defaultModel d /\
  requests (events (checkCredits w d t)) =
    if truthy (apiKey d) then [credits_request (apiKey d)] else [].
Proof.
  unfold checkCredits. run_method.
  probe_split; repeat split.
Qed.

(** The two probes in a row, on a device with the key [key]. *)
Lemma probes_effects (w : World) (d : OpenRouterDevice) (t : Z) (key : string) :
  apiKey d = key ->
  let r := bind checkApiStatus (fun _ => checkCredits) w d t in
  value r = inr tt /\
  apiKey (self' r) = key /\
  defaultModel (self' r) = defaultModel d /\
  requests (events r) = probe_requests key.
Proof.
  intros Hd. subst key. cbv zeta.
  pose proof (checkApiStatus_run w d t) as Hs. cbv zeta in Hs.
  unfold run, reachable in Hs.
  unfold bind. rewrite Hs. clear Hs. cbn [value self' clock' events].
  set (d1 := match capability_sink w openrouter_status _ with
             | None => _ | Some _ => d end).
  assert (Hkey : apiKey d1 = apiKey d)
    by (subst d1; destruct (capability_sink w openrouter_status _);
        destruct d; reflexivity).
  assert (Hmodel : defaultModel d1 = defaultModel d)
    by (subst d1; destruct (capability_sink w openrouter_status _);
        destruct d; reflexivity).
  set (t1 := t + latency _).
  destruct (checkCredits_effects w d1 t1) as (Hv & Hk & Hm & Hreq).
  rewrite Hv. cbn [value self' events].
  rewrite Hk, Hm, Hkey, Hmodel. repeat split.
  rewrite requests_app, Hreq, Hkey. unfold probe_requests.
  destruct (outcome (models_api w t (models_request (apiKey d))));
    destruct (capability_sink w openrouter_status _); reflexivity.
Qed.

(** X8. The status probe never throws.  It sends one request, with
    whatever key is configured, and writes the status capability once:
    true exactly when the endpoint answered with a success status.  It
    returns the value it wrote and leaves the key, the default model and
    the published credits as they were. *)
Theorem checkApiStatus_report (w : World) (d : OpenRouterDevice) (t : Z) :
  let r := run checkApiStatus w d t in
  let online := reachable w t (models_request (apiKey d)) in
  value r = inr online /\
  requests (events r) = [models_request (apiKey d)] /\
  published (events r) = [(openrouter_status, VBool online)] /\
  apiKey (self' r) = apiKey d /\
  defaultModel (self' r) = defaultModel d /\
  credits_value (self' r) = credits_value d /\
  status_value (self' r) =
    match capability_sink w openrouter_status (VBool online) with
    | None => Some (VBool online)
    | Some _ => status_value d
    end.
Proof.
  cbv zeta. pose proof (checkApiStatus_run w d t) as Hs. cbv zeta in Hs.
  rewrite Hs. cbn [value self' events].
  destruct (outcome (models_api w t _));
    destruct (capability_sink w openrouter_status _); repeat split.
Qed.

(** X9. The balance probe never throws, whatever the network and the host
    do; it sends its request exactly when a key is configured, and it
    leaves the key, the default model and the published status as they
    were. *)
Theorem checkCredits_contained (w : World) (d : OpenRouterDevice) (t : Z) :
  let r := run checkCredits w d t in
  value r = inr tt /\
  apiKey (self' r) = apiKey d /\
  defaultModel (self' r) = defaultModel d /\
  status_value (self' r) = status_value d /\
  requests (events r) =
    if truthy (apiKey d) then [credits_request (apiKey d)] else [].
Proof.
  cbv zeta. unfold checkCredits. run_method.
  destruct d as [key m sv cv].
  cbn [apiKey defaultModel status_value credits_value store].
  probe_split; repeat split.
Qed.

(** X10. When the probe reads the credits and the host rejects the write,
    the rejection is logged and swallowed: the probe answers normally and
    the device, with its published credits, is as before. *)
Theorem checkCredits_rejected_write (w : World) (d : OpenRouterDevice) (t : Z)
    (c : CreditsData) (e : Exn) :
  ProbeReads d w t c ->
  let remaining := VNum (total_credits c - total_usage c)%float in
  capability_sink w openrouter_credits remaining = Some e ->
  run checkCredits w d t =
    mkResult (inr tt) d
      (t + latency (credits_api w t (credits_request (apiKey d))))
      [EvFetch (credits_request (apiKey d));
       EvSetCapability openrouter_credits remaining;
       EvError [AExn e]].
Proof.
  intros (Hkey & r & Hout & Hok & Hdata) remaining Hsink. subst remaining.
  apply truthy_true in Hkey.
  unfold checkCredits. run_method. rewrite Hkey. cbn [negb].
  rewrite Hout, Hok. cbn [negb].
  unfold credits_of in Hdata. destruct (json r) as [e'|p]; [discriminate|].
  rewrite Hdata, Hsink. reflexivity.
Qed.

Lemma checkCredits_rejected_write_witness :
  self' (run checkCredits
           (Sample2.read_only (mkCreditsData 10.5 5.5))
           (mkDevice "sk-or-abc" "m" None (Some (VNum 7%float))) 0) =
    mkDevice "sk-or-abc" "m" None (Some (VNum 7%float)).
Proof.
  refine (f_equal self'
            (checkCredits_rejected_write
               (Sample2.read_only (mkCreditsData 10.5 5.5))
               (mkDevice "sk-or-abc" "m" None (Some (VNum 7%float))) 0
               (mkCreditsData 10.5 5.5) (Error "Invalid capability") _ eq_refl)).
  split; [discriminate|].
  eexists. repeat split.
Defined.

(** [onSettings] is the two probes run on the device with the updated
    fields. *)
Lemma onSettings_run (newApiKey newDefaultModel : option string)
    (w : World) (d : OpenRouterDevice) (t : Z) :
  run (onSettings newApiKey newDefaultModel) w d t =
    bind checkApiStatus (fun _ => checkCredits) w
      (mkDevice (or_else newApiKey (apiKey d))
                (or_else newDefaultModel (defaultModel d))
                (status_value d) (credits_value d)) t.
Proof.
  unfold onSettings, run.
  set (probes := bind checkApiStatus (fun _ => checkCredits)).
  destruct d as [k m sv cv]. cbn [apiKey defaultModel status_value credits_value].
  destruct newApiKey as [nk|]; destruct newDefaultModel as [nm|];
    cbn [truthy_opt or_else];
    try destruct (truthy nk); try destruct (truthy nm);
    cbv [bind modify ret value self' clock' events];
    cbn [apiKey defaultModel status_value credits_value app];
    apply result_eta.
Qed.

(** X11. [onSettings] never throws.  A new key or default model replaces
    the field only when it is a non-empty string, so an empty or absent
    new value keeps the old one; the two probes then run with the
    resulting key. *)
Theorem onSettings_update (newApiKey newDefaultModel : option string)
    (w : World) (d : OpenRouterDevice) (t : Z) :
  let r := run (onSettings newApiKey newDefaultModel) w d t in
  value r = inr tt /\
  apiKey (self' r) = or_else newApiKey (apiKey d) /\
  defaultModel (self' r) = or_else newDefaultModel (defaultModel d) /\
  requests (events r) = probe_requests (or_else newApiKey (apiKey d)).
Proof.
  cbv zeta. rewrite onSettings_run.
  set (d1 := mkDevice _ _ _ _).
  destruct (probes_effects w d1 t (or_else newApiKey (apiKey d)) eq_refl)
    as (Hv & Hk & Hm & Hreq).
  repeat split; assumption.
Qed.

(** The fields and the requests of [onInit]. *)
Lemma onInit_effects (settings : Settings) (w : World) (d : OpenRouterDevice) (t : Z) :
  let r := run (onInit settings) w d t in
  let key := or_else (setting_apiKey settings) "" in
  value r = inr [mkInterval 300000] /\
  apiKey (self' r) = key /\
  defaultModel (self' r) =
    or_else (setting_defaultModel settings) "google/gemini-3-flash-preview" /\
  requests (events r) = probe_requests key.
Proof.
  cbv zeta. unfold onInit, run.
  set (key := or_else (setting_apiKey settings) "").
  set (dflt := or_else (setting_defaultModel settings) _).
  set (d1 := mkDevice key dflt (status_value d) (credits_value d)).
  destruct (probes_effects w d1 t key eq_refl) as (Hv & Hk & Hm & Hreq).
  revert Hv Hk Hm Hreq.
  cbv [bind log emit modify ret value self' clock' events].
  cbn [apiKey defaultModel status_value credits_value]. fold d1.
  destruct (checkApiStatus w d1 t) as [[e|b] d2 t2 ev2];
    [discriminate 1|].
  destruct (checkCredits w d2 t2) as [[e|u] d3 t3 ev3];
    [discriminate 1|].
  intros _ Hk Hm Hreq. repeat split; try assumption.
  rewrite app_nil_r. exact Hreq.
Qed.

(** X12. [onInit] never throws.  It loads the key and the default model
    from the settings, with the empty key and the built-in default model
    for an unset or empty setting, runs the status probe and then the
    balance probe with that key, and registers one timer of five
    minutes.  With no key stored it still sends the status request, and
    no credits request. *)
Theorem onInit_boot (settings : Settings) (w : World) (d : OpenRouterDevice) (t : Z) :
  let r := run (onInit settings) w d t in
  let key := or_else (setting_apiKey settings) "" in
  (value r = inr [mkInterval 300000] /\
   apiKey (self' r) = key /\
   defaultModel (self' r) =
     or_else (setting_defaultModel settings) "google/gemini-3-flash-preview" /\
   requests (events r) = probe_requests key) /\
  (key = "" -> requests (events r) = [models_request ""]).
Proof.
  cbv zeta. split; [apply onInit_effects|].
  intros Hkey.
  destruct (onInit_effects settings w d t) as (_ & _ & _ & Hreq).
  cbv zeta in Hreq. rewrite Hreq, Hkey. reflexivity.
Qed.

Lemma onInit_boot_witness :
  requests (events (run (onInit (mkSettings None None)) Sample.offline
                      (Sample.device "stale") 0)) = [models_request ""].
Proof.
  exact (proj2 (onInit_boot (mkSettings None None) Sample.offline
                  (Sample.device "stale") 0) eq_refl).
Defined.

End ProbeFacts.

(* ================================================================== *)
(** ** The driver: the life of the model cache *)

Module CacheFacts.
Import JS Host Driver Spec Outcomes JSFacts DriverFacts.

Ltac run_method :=
  cbv [run bind ret throw gets modify emit date_now fetch json_of log
       log_error try_catch value self' clock' events].

(** Copying the two fields of each model gives the same list. *)
Lemma copy_models (l : list OpenRouterModel) :
  map (fun m => mkModel (id m) (name m)) l = l.
Proof.
  induction l as [|[i n] l IH]; [reflexivity|].
  cbn [map id name]. now rewrite IH.
Qed.

Lemma cache_valid_empty (t0 t : Z) : cache_valid (mkDriver [] t0) t = false.
Proof.
  reflexivity.
Qed.

Lemma cache_valid_expired (d : OpenRouterDriver) (t : Z) :
  modelsCacheTime d + CACHE_TTL <= t -> cache_valid d t = false.
Proof.
  intros Hage. unfold cache_valid.
  apply andb_false_iff. right. apply Z.ltb_ge. lia.
Qed.

(** X13. A refresh that succeeds with a non-empty catalog answers that
    catalog in the order of the payload, sends one request, and stores
    the catalog with the time at which the response arrived; every call
    made less than five minutes after that time answers the same
    catalog from the cache, whatever the device handle and the world. *)
Theorem fetchModels_refresh_then_hit (dev : HomeyDevice) (w : World)
    (d : OpenRouterDriver) (t : Z) (key : string)
    (r : Response ModelsResponse) (l : list OpenRouterModel) :
  cache_valid d t = false ->
  getSetting_apiKey dev = Some key -> key <> "" ->
  outcome (models_api w t (Device.models_request key)) = inr r ->
  ok r = true -> models_of r = Some l -> l <> [] ->
  let t' := t + latency (models_api w t (Device.models_request key)) in
  let r1 := run (fetchModels dev) w d t in
  r1 = mkResult (inr l) (mkDriver l t') t' [EvFetch (Device.models_request key)] /\
  (forall dev2 w2 t2,
     t2 - t' < CACHE_TTL ->
     run (fetchModels dev2) w2 (self' r1) t2 =
       mkResult (inr l) (self' r1) t2 []).
Proof.
  intros Hstale Hdev Hkey Hout Hok Hdata Hne. cbv zeta.
  apply truthy_true in Hkey.
  pose proof (fetchModels_refresh dev w d t key r l Hstale Hdev Hkey Hout Hok Hdata)
    as Hrun.
  cbv zeta in Hrun. rewrite copy_models in Hrun. rewrite Hrun.
  split; [reflexivity|].
  intros dev2 w2 t2 Hage. cbn [self'].
  rewrite fetchModels_hit; [reflexivity|].
  apply cache_valid_fresh; [exact Hne | exact Hage].
Qed.

Lemma fetchModels_refresh_then_hit_witness :
  let w := Sample.models_world 200 (mkModelsResponse (Some Sample2.catalog)) in
  let r1 := run (fetchModels (mkHomeyDevice (Some "sk-or-abc"))) w init 1000 in
  r1 = mkResult (inr Sample2.catalog) (mkDriver Sample2.catalog 1120) 1120
         [EvFetch (Device.models_request "sk-or-abc")] /\
  run (fetchModels (mkHomeyDevice None)) Sample.offline (self' r1) 301119 =
    mkResult (inr Sample2.catalog) (self' r1) 301119 [].
Proof.
  cbv zeta.
  destruct (fetchModels_refresh_then_hit (mkHomeyDevice (Some "sk-or-abc"))
              (Sample.models_world 200 (mkModelsResponse (Some Sample2.catalog)))
              init 1000 "sk-or-abc"
              (mkResponse 200 "" (inr (mkModelsResponse (Some Sample2.catalog))))
              Sample2.catalog eq_refl eq_refl ltac:(discriminate) eq_refl eq_refl
              eq_refl ltac:(discriminate)) as [H1 H2].
  split; [exact H1|].
  apply (H2 (mkHomeyDevice None) Sample.offline 301119). reflexivity.
Defined.

(** X14. A refresh that succeeds with an empty catalog answers the empty
    list, not the fallback, and leaves a cache that is never valid: at no
    later time is a call served from it. *)
Theorem fetchModels_empty_catalog (dev : HomeyDevice) (w : World)
    (d : OpenRouterDriver) (t : Z) (key : string)
    (r : Response ModelsResponse) :
  cache_valid d t = false ->
  getSetting_apiKey dev = Some key -> key <> "" ->
  outcome (models_api w t (Device.models_request key)) = inr r ->
  ok r = true -> models_of r = Some [] ->
  let r1 := run (fetchModels dev) w d t in
  value r1 = inr [] /\
  modelsCache (self' r1) = [] /\
  forall t2, cache_valid (self' r1) t2 = false.
Proof.
  intros Hstale Hdev Hkey Hout Hok Hdata. cbv zeta.
  apply truthy_true in Hkey.
  rewrite (fetchModels_refresh dev w d t key r [] Hstale Hdev Hkey Hout Hok Hdata).
  cbn [value self' map modelsCache]. repeat split.
Qed.

Lemma fetchModels_empty_catalog_witness :
  value (run (fetchModels (mkHomeyDevice (Some "sk-or-abc")))
           (Sample2.key_check 200) init 1000) = inr [].
Proof.
  refine (proj1 (fetchModels_empty_catalog (mkHomeyDevice (Some "sk-or-abc"))
                   (Sample2.key_check 200) init 1000 "sk-or-abc"
                   (mkResponse 200 "" (inr (mkModelsResponse (Some []))))
                   eq_refl eq_refl _ eq_refl eq_refl eq_refl)).
  discriminate.
Defined.

(** X15. [fetchModels] never throws and sends at most one request.  What
    it answers is the cache as it stands after the call, or else the
    fallback with the driver untouched; and the driver is either
    untouched or stamped with the time at which the call ended. *)
Theorem fetchModels_answer (dev : HomeyDevice) (w : World)
    (d : OpenRouterDriver) (t : Z) :
  let r := run (fetchModels dev) w d t in
  exists catalog,
    value r = inr catalog /\
    (catalog = modelsCache (self' r) \/
     (catalog = getDefaultModels /\ self' r = d)) /\
    (self' r = d \/ modelsCacheTime (self' r) = clock' r) /\
    (List.length (requests (events r)) <= 1)%nat.
Proof.
  cbv zeta. unfold fetchModels. run_method.
  destruct (cache_valid d t).
  { exists (modelsCache d). cbn. repeat split; auto. }
  destruct (getSetting_apiKey dev) as [key|].
  2: { exists getDefaultModels. cbn. repeat split; auto. }
  destruct (truthy key); cbn [negb].
  2: { exists getDefaultModels. cbn. repeat split; auto. }
  destruct (outcome (models_api w t (Device.models_request key))) as [e|r].
  { exists getDefaultModels. cbn. repeat split; auto. }
  destruct (ok r); cbn [negb].
  2: { exists getDefaultModels. cbn. repeat split; auto. }
  destruct (json r) as [e|p].
  { exists getDefaultModels. cbn. repeat split; auto. }
  destruct (models_data p) as [l|].
  2: { exists getDefaultModels. cbn. repeat split; auto. }
  eexists. cbn [app List.length requests flat_map modelsCache modelsCacheTime].
  repeat split; auto.
Qed.

(** X16. Once the cache is five minutes old or older it is not used: a
    call with a key configured sends exactly one request for the model
    list, carrying that key. *)
Theorem fetchModels_expired (dev : HomeyDevice) (w : World)
    (d : OpenRouterDriver) (t : Z) (key : string) :
  modelsCacheTime d + CACHE_TTL <= t ->
  getSetting_apiKey dev = Some key -> key <> "" ->
  requests (events (run (fetchModels dev) w d t)) =
    [Device.models_request key].
Proof.
  intros Hage Hdev Hkey. apply truthy_true in Hkey.
  unfold fetchModels. run_method.
  rewrite (cache_valid_expired d t Hage), Hdev, Hkey. cbn [negb].
  destruct (outcome (models_api w t (Device.models_request key))) as [e|r];
    [reflexivity|].
  destruct (ok r); cbn [negb]; [|reflexivity].
  destruct (json r) as [e|p]; [reflexivity|].
  destruct (models_data p); reflexivity.
Qed.

Lemma fetchModels_expired_witness :
  requests (events (run (fetchModels (mkHomeyDevice (Some "sk-or-abc")))
                      Sample.offline
                      (mkDriver Sample2.catalog 1000) 301000)) =
    [Device.models_request "sk-or-abc"].
Proof.
  refine (fetchModels_expired (mkHomeyDevice (Some "sk-or-abc")) Sample.offline
            (mkDriver Sample2.catalog 1000) 301000 "sk-or-abc" _ eq_refl _).
  - discriminate.
  - discriminate.
Defined.

End CacheFacts.

(* ================================================================== *)
(** ** The autocomplete listener as a whole *)

Module AutocompleteMore.
Import JS Host Driver Spec Outcomes JSFacts DriverFacts AutocompleteFacts.



(** X19. The sort is stable: among the kept models, those the comparator
    does not separate from a given model (the same name for two
    non-featured models, the same id for two featured ones) stay in the
    order of the catalog. *)
Theorem ranked_ties_keep_order {L : Locale} {LL : LocaleLaws L}
    (q : string) (C : list OpenRouterModel) (z : OpenRouterModel) :
  filter (tied z) (ranked q C) = filter (tied z) (matching q C).
Proof.
  unfold ranked, tied.
  apply (sort_stable compareModels).
  exact compareModels_trans.
Qed.

Lemma ranked_ties_keep_order_witness :
  filter (@tied PlainLocale.plain (mkModel "a/gpt" "Zed"))
         (@ranked PlainLocale.plain "" Sample2.catalog) =
    [mkModel "z/z-gpt" "Zed"; mkModel "a/gpt" "Zed"].
Proof.
  rewrite (@ranked_ties_keep_order PlainLocale.plain PlainLocaleFacts.plain_laws
             "" Sample2.catalog (mkModel "a/gpt" "Zed")).
  reflexivity.
Defined.

End AutocompleteMore.

(* ================================================================== *)
(** ** Pairing: key validation, login, device list *)

Module PairingMore.
Import JS Host Driver Spec Outcomes JSFacts.

Ltac run_method :=
  cbv [run bind ret throw gets modify emit date_now fetch json_of log
       log_error try_catch value self' clock' events].

Lemma startsWith_truthy (k : string) :
  startsWith k "sk-or-" = true -> truthy k = true.
Proof.
  intros H. apply startsWith_spec in H as [b ->]. reflexivity.
Qed.

Lemma or_else_truthy (x : option string) (dflt : string) :
  dflt <> "" -> or_else x dflt <> "".
Proof.
  intros Hd. destruct x as [s|]; cbn [or_else]; [|exact Hd].
  destruct (truthy s) eqn:Hs; [now apply truthy_true | exact Hd].
Qed.

Lemma trimStart_fixed (s : string) :
  is_space (first_char s) = false -> trimStart s = s.
Proof.
  destruct s as [|c s]; [reflexivity|]. cbn. now intros ->.
Qed.

Lemma trimEnd_fixed (s : string) :
  is_space (last_char s) = false -> trimEnd s = s.
Proof.
  induction s as [|c s IH]; [reflexivity|].
  destruct s as [|c' s'].
  - cbn. now intros ->.
  - intros H. change (last_char (String c (String c' s')))
      with (last_char (String c' s')) in H.
    specialize (IH H).
    change (trimEnd (String c (String c' s')))
      with (match trimEnd (String c' s') with
            | EmptyString =>
                if isWhiteSpace c then EmptyString else String c EmptyString
            | r' => String c r'
            end).
    now rewrite IH.
Qed.

Lemma trim_idempotent (s : string) : trim (trim s) = trim s.
Proof.
  destruct (trim_spec s) as (a & b & _ & _ & _ & Hf & Hl).
  unfold trim at 1. rewrite (trimStart_fixed _ Hf). now apply trimEnd_fixed.
Qed.

(** The whole run of [validateApiKey]. *)
Lemma validateApiKey_run {S : Type} (key : string) (w : World) (s : S) (t : Z) :
  run (validateApiKey key) w s t =
    mkResult (inr (reachable w t (Device.models_request key))) s
      (t + latency (models_api w t (Device.models_request key)))
      (EvFetch (Device.models_request key) ::
       match outcome (models_api w t (Device.models_request key)) with
       | inl e => [EvError [AStr "API key validation error:"; AExn e]]
       | inr _ => []
       end).
Proof.
  unfold validateApiKey, reachable. run_method.
  destruct (outcome (models_api w t (Device.models_request key))); reflexivity.
Qed.

(** The whole run of [login] on a well-formed key. *)
Lemma login_run (data : LoginData) (w : World) (p : PairSession) (t : Z)
    (u : string) :
  username data = Some u ->
  startsWith (trim u) "sk-or-" = true ->
  let req := Device.models_request (trim u) in
  let evs := EvFetch req ::
             match outcome (models_api w t req) with
             | inl e => [EvError [AStr "API key validation error:"; AExn e]]
             | inr _ => []
             end in
  run (login data) w p t =
    if reachable w t req then
      mkResult (inr true)
        (mkPairSession (trim u)
           (or_else (option_map trim (password data))
              "google/gemini-3-flash-preview"))
        (t + latency (models_api w t req)) evs
    else
      mkResult (inl (Error "API key validation failed. Please check your key."))
        p (t + latency (models_api w t req)) evs.
Proof.
  intros Hu Hprefix. cbv zeta.
  pose proof (startsWith_truthy _ Hprefix) as Htruthy.
  unfold login. rewrite Hu. cbn [option_map]. rewrite Htruthy, Hprefix.
  cbn [negb orb]. unfold run, bind at 1.
  pose proof (validateApiKey_run (trim u) w p t) as Hv. unfold run in Hv.
  rewrite Hv. cbn [value self' clock' events].
  destruct (reachable w t (Device.models_request (trim u))); cbn [negb].
  - run_method. cbn [Driver.apiKey Driver.defaultModel].
    now rewrite !app_nil_r.
  - run_method. now rewrite app_nil_r.
Qed.

(** X20. [validateApiKey] never throws: it answers true exactly when the
    models endpoint answered with a success status, and false when the
    status is another one or the request failed; it sends one request
    with the key and changes no field. *)
Theorem validateApiKey_verdict (key : string) (w : World) (p : PairSession) (t : Z) :
  let r := run (validateApiKey key) w p t in
  exists b,
    value r = inr b /\
    (b = true <->
     exists resp, outcome (models_api w t (Device.models_request key)) = inr resp /\
                  ok resp = true) /\
    self' r = p /\
    requests (events r) = [Device.models_request key].
Proof.
  cbv zeta. rewrite validateApiKey_run. cbn [value self' events].
  exists (reachable w t (Device.models_request key)).
  split; [reflexivity|]. unfold reachable.
  destruct (outcome (models_api w t (Device.models_request key))) as [e|resp].
  - repeat split; try discriminate. intros (resp & Hresp & _). discriminate.
  - repeat split.
    + intros Hok. now exists resp.
    + intros (resp' & Hresp & Hok). now injection Hresp as ->.
Qed.

Lemma validateApiKey_verdict_witness :
  exists b,
    value (run (validateApiKey "sk-or-abc") Sample.offline pairData_init 0) = inr b /\
    b <> true.
Proof.
  destruct (validateApiKey_verdict "sk-or-abc" Sample.offline pairData_init 0)
    as (b & Hv & [Hb _] & _).
  exists b. split; [exact Hv|].
  intros Htrue. destruct (Hb Htrue) as (resp & Hresp & _). discriminate.
Defined.

(** X21. A key that, trimmed, starts with "sk-or-" and that the API
    accepts is stored trimmed, together with the trimmed default model,
    or the built-in default model when none or an empty one was
    submitted; [login] answers true after one request. *)
Theorem login_accepts (data : LoginData) (w : World) (p : PairSession) (t : Z)
    (u : string) :
  username data = Some u ->
  startsWith (trim u) "sk-or-" = true ->
  reachable w t (Device.models_request (trim u)) = true ->
  let r := run (login data) w p t in
  value r = inr true /\
  self' r = mkPairSession (trim u)
              (or_else (option_map trim (password data))
                 "google/gemini-3-flash-preview") /\
  requests (events r) = [Device.models_request (trim u)].
Proof.
  intros Hu Hprefix Hok. cbv zeta.
  rewrite (login_run data w p t u Hu Hprefix). cbv zeta. rewrite Hok.
  cbn [value self' events]. repeat split.
  unfold reachable in Hok.
  destruct (outcome (models_api w t (Device.models_request (trim u))));
    [discriminate | reflexivity].
Qed.

Lemma login_accepts_witness :
  self' (run (login (mkLoginData (Some " sk-or-abc ") (Some "  ")))
           (Sample2.key_check 200) pairData_init 0) =
    mkPairSession "sk-or-abc" "google/gemini-3-flash-preview".
Proof.
  exact (proj1 (proj2 (login_accepts
           (mkLoginData (Some " sk-or-abc ") (Some "  "))
           (Sample2.key_check 200) pairData_init 0 " sk-or-abc "
           eq_refl eq_refl eq_refl))).
Defined.

(** X22. A well-formed key that the API does not accept (another status,
    or a failed request) makes [login] fail with "API key validation
    failed. Please check your key." after one request, and the pending
    pairing credentials are as before. *)
Theorem login_validation_failure (data : LoginData) (w : World)
    (p : PairSession) (t : Z) (u : string) :
  username data = Some u ->
  startsWith (trim u) "sk-or-" = true ->
  reachable w t (Device.models_request (trim u)) = false ->
  let r := run (login data) w p t in
  value r = inl (Error "API key validation failed. Please check your key.") /\
  self' r = p /\
  requests (events r) = [Device.models_request (trim u)].
Proof.
  intros Hu Hprefix Hok. cbv zeta.
  rewrite (login_run data w p t u Hu Hprefix). cbv zeta. rewrite Hok.
  cbn [value self' events]. repeat split.
  destruct (outcome (models_api w t (Device.models_request (trim u))));
    reflexivity.
Qed.

Lemma login_validation_failure_witness :
  value (run (login (mkLoginData (Some "sk-or-revoked") None))
           (Sample2.key_check 401) pairData_init 0) =
    inl (Error "API key validation failed. Please check your key.").
Proof.
  exact (proj1 (login_validation_failure
           (mkLoginData (Some "sk-or-revoked") None)
           (Sample2.key_check 401) pairData_init 0 "sk-or-revoked"
           eq_refl eq_refl eq_refl)).
Defined.

(** X23. [login] answers only true; when it does, the stored key starts
    with "sk-or-" and has no white space around it; when it throws, the
    pending pairing credentials are as before.  So credentials that hold
    nothing or a well-formed key, with a non-empty default model, stay
    so through any login. *)
Theorem login_keeps_well_formed (data : LoginData) (w : World)
    (p : PairSession) (t : Z) :
  let r := run (login data) w p t in
  (forall b, value r = inr b ->
     b = true /\
     startsWith (apiKey (self' r)) "sk-or-" = true /\
     trim (apiKey (self' r)) = apiKey (self' r) /\
     defaultModel (self' r) <> "") /\
  (forall e, value r = inl e -> self' r = p) /\
  (well_formed p -> well_formed (self' r)).
Proof.
  cbv zeta.
  assert (Hreject : forall q, run (login data) w p t = mkResult (inl InvalidKey) p t [] ->
            (forall b, value (run (login data) w p t) = inr b -> q b) /\
            (forall e, value (run (login data) w p t) = inl e ->
               self' (run (login data) w p t) = p) /\
            (well_formed p -> well_formed (self' (run (login data) w p t)))).
  { intros q ->. cbn [value self'].
    split; [intros b Hb; discriminate | split; auto]. }
  destruct (username data) as [u|] eqn:Hu.
  2: { apply Hreject. unfold login. rewrite Hu. reflexivity. }
  destruct (startsWith (trim u) "sk-or-") eqn:Hprefix.
  2: { apply Hreject. unfold login. rewrite Hu. cbn [option_map].
       rewrite Hprefix, orb_true_r. reflexivity. }
  rewrite (login_run data w p t u Hu Hprefix). cbv zeta.
  assert (Hd : or_else (option_map trim (password data))
                 "google/gemini-3-flash-preview" <> "")
    by (apply or_else_truthy; discriminate).
  destruct (reachable w t (Device.models_request (trim u)));
    cbn [value self' apiKey defaultModel].
  - split; [|split].
    + intros b Hb. injection Hb as <-.
      repeat split; auto using trim_idempotent.
    + discriminate.
    + intros _. split; [now right | exact Hd].
  - split; [intros b Hb; discriminate | split; auto].
Qed.

Lemma login_keeps_well_formed_witness :
  well_formed (self' (run (login (mkLoginData (Some " sk-or-abc ") None))
                        (Sample2.key_check 200) pairData_init 0)).
Proof.
  apply (proj2 (proj2 (login_keeps_well_formed
           (mkLoginData (Some " sk-or-abc ") None)
           (Sample2.key_check 200) pairData_init 0))).
  split; [now left | discriminate].
Defined.

(** X24. From pairing to start-up: after a login that succeeds,
    [list_devices] lists exactly one device, named "OpenRouter", without
    any effect, and a device started with the settings of that entry
    holds the trimmed key and the chosen default model. *)
Theorem pairing_round_trip (data : LoginData) (w : World) (p : PairSession)
    (t : Z) (u : string) :
  username data = Some u ->
  startsWith (trim u) "sk-or-" = true ->
  reachable w t (Device.models_request (trim u)) = true ->
  let dflt := or_else (option_map trim (password data))
                "google/gemini-3-flash-preview" in
  let p' := self' (run (login data) w p t) in
  forall w2 t2,
    let entry := mkDeviceEntry "OpenRouter" ("openrouter-" ++ string_of_Z t2)
                   (trim u) dflt in
    run list_devices w2 p' t2 = mkResult (inr [entry]) p' t2 [] /\
    forall w3 d t3,
      let booted := self' (run (DeviceLifecycle.onInit
                                  (DeviceLifecycle.settings_of_entry entry))
                             w3 d t3) in
      Device.apiKey booted = trim u /\ Device.defaultModel booted = dflt.
Proof.
  intros Hu Hprefix Hok. cbv zeta.
  rewrite (login_run data w p t u Hu Hprefix). cbv zeta. rewrite Hok.
  cbn [self']. intros w2 t2. split; [reflexivity|].
  intros w3 d t3.
  destruct (ProbeFacts.onInit_effects
              (DeviceLifecycle.settings_of_entry
                 (mkDeviceEntry "OpenRouter" ("openrouter-" ++ string_of_Z t2)
                    (trim u)
                    (or_else (option_map trim (password data))
                       "google/gemini-3-flash-preview")))
              w3 d t3) as (_ & Hk & Hm & _).
  cbv zeta in Hk, Hm. rewrite Hk, Hm.
  unfold DeviceLifecycle.settings_of_entry.
  cbn [DeviceLifecycle.setting_apiKey DeviceLifecycle.setting_defaultModel
       entry_apiKey entry_defaultModel or_else].
  rewrite (startsWith_truthy _ Hprefix).
  assert (Hd : truthy (or_else (option_map trim (password data))
                         "google/gemini-3-flash-preview") = true)
    by (apply truthy_true, or_else_truthy; discriminate).
  rewrite Hd. split; reflexivity.
Qed.

Lemma pairing_round_trip_witness :
  Device.apiKey
    (self' (run (DeviceLifecycle.onInit
                   (DeviceLifecycle.settings_of_entry
                      (mkDeviceEntry "OpenRouter" "openrouter-500" "sk-or-abc"
                         "openai/gpt-4.1")))
              Sample.offline (Sample.device "") 900)) = "sk-or-abc".
Proof.
  exact (proj1 (proj2 (pairing_round_trip
           (mkLoginData (Some " sk-or-abc ") (Some "openai/gpt-4.1 "))
           (Sample2.key_check 200) pairData_init 0 " sk-or-abc "
           eq_refl eq_refl eq_refl Sample.offline 500)
           Sample.offline (Sample.device "") 900)).
Defined.

End PairingMore.

(* ================================================================== *)
(** ** The flow cards *)

Module FlowCardFacts.
Import JS Host Spec Outcomes JSFacts FlowCards.

(** X25. The card [generate_with_context] run with an absent or empty
    system prompt is the card [generate_text]: same answer, same effects,
    same device afterwards. *)
Theorem generate_with_context_plain (model : Driver.AutocompleteItem)
    (system_prompt : option string) (prompt : string)
    (w : World) (d : Device.OpenRouterDevice) (t : Z) :
  system_prompt = None \/ system_prompt = Some "" ->
  run (generate_with_context model system_prompt prompt) w d t =
    run (generate_text model prompt) w d t.
Proof.
  intros [-> | ->]; reflexivity.
Qed.

Lemma generate_with_context_plain_witness :
  run (generate_with_context (Driver.mkItem "m" "M" "m") (Some "") "Hi")
      (Sample.chat_world 200 (Sample.completion " Hello! "))
      (Sample.device "sk-or-abc") 0 =
    run (generate_text (Driver.mkItem "m" "M" "m") "Hi")
      (Sample.chat_world 200 (Sample.completion " Hello! "))
      (Sample.device "sk-or-abc") 0.
Proof.
  apply (generate_with_context_plain (Driver.mkItem "m" "M" "m") (Some "") "Hi"
           (Sample.chat_world 200 (Sample.completion " Hello! "))
           (Sample.device "sk-or-abc") 0).
  now right.
Defined.

(** X26. The card [generate_text] sends no system message: the only
    message sequence it can send is the single user message carrying the
    prompt; it asks for the model with the id of the chosen entry, or for
    the default model of the device when that id is empty; and it fails
    with the very error of [generateText], or wraps its text. *)
Theorem generate_text_card (model : Driver.AutocompleteItem) (prompt : string)
    (w : World) (d : Device.OpenRouterDevice) (t : Z) :
  let r := run (generate_text model prompt) w d t in
  let g := run (Device.generateText prompt (Some (Driver.item_id model)) None) w d t in
  (forall req, In req (requests (events r)) ->
     exists b, body req = Some b /\
               messages b = [mkChatMessage user prompt] /\
               Host.model b =
                 (if truthy (Driver.item_id model) then Driver.item_id model
                  else Device.defaultModel d)) /\
  value r = match value g with
            | inl e => inl e
            | inr s => inr (mkFlowResult s)
            end /\
  self' r = d.
Proof.
  cbv zeta. unfold generate_text, run, bind.
  pose proof (RequestFacts.generateText_requests prompt
                (Some (Driver.item_id model)) None w d t) as Hreq.
  assert (Hself : self' (Device.generateText prompt
                           (Some (Driver.item_id model)) None w d t) = d).
  { destruct (string_dec (Device.apiKey d) "") as [Hkey|Hkey].
    - pose proof (DeviceFacts.generateText_without_key prompt
                    (Some (Driver.item_id model)) None w d t Hkey) as Hrun.
      unfold run in Hrun. now rewrite Hrun.
    - destruct (DeviceCourses.generateText_run prompt
                  (Some (Driver.item_id model)) None w d t Hkey)
        as (v & tail & _ & Hrun).
      unfold run in Hrun. now rewrite Hrun. }
  unfold run in Hreq.
  destruct (Device.generateText prompt (Some (Driver.item_id model)) None w d t)
    as [[e|s] d' t' ev]; cbn [value self' events ret] in *;
    rewrite ?app_nil_r; (split; [|split; [reflexivity | exact Hself]]);
    intros req Hin; specialize (Hreq req Hin); subst req;
    eexists; (split; [reflexivity|]); split; reflexivity.
Qed.

Lemma generate_text_card_witness :
  exists b,
    body (Device.chat_request "sk-or-abc" "m" [mkChatMessage user "Hi"]) = Some b /\
    messages b = [mkChatMessage user "Hi"].
Proof.
  destruct (proj1 (generate_text_card (Driver.mkItem "m" "M" "m") "Hi"
                     (Sample.chat_world 200 (Sample.completion " Hello! "))
                     (Sample.device "sk-or-abc") 0)
              (Device.chat_request "sk-or-abc" "m" [mkChatMessage user "Hi"]))
    as (b & Hb & Hm & _).
  - vm_compute. left. reflexivity.
  - exists b. split; assumption.
Defined.

End FlowCardFacts.
